(** * Ossuary Pi control plane: captive-portal proxy and test-command supervisor

    A shallow embedding of [scripts/captive-portal-proxy.py] and of the
    test-process handlers of [scripts/config-server.py], with the properties
    the design document states about them.

    Conventions.
    - A Python [str] or [bytes] value is a [string]: a sequence of 8-bit
      characters.  [http.server] decodes the request line and the headers as
      ISO-8859-1, so for the proxy this is the exact data; command texts of
      the configuration server are taken in the same range.
    - A handler body is a computation in a state-and-exception monad: the
      state is whatever the handler can reach (the connection, the registry,
      the files), an exception leaves the effects done so far in place.
    - What the operating system, the backend or the client decide is read
      from an explicit environment value, one field per call of the source. *)

From Stdlib Require Import ZArith Ascii String List Bool Lia.
From stdpp Require Import base decidable option list strings pretty gmap fin_maps fin_sets.

Set Warnings "-register-all".

Local Open Scope string_scope.
Local Open Scope list_scope.
Local Open Scope Z_scope.

(** ** Python values used by both programs *)

Module Py.

(** [str.lower()] on ISO-8859-1 text: the ASCII capitals and the accented
    capitals U+00C0..U+00DE (U+00D7, the multiplication sign, has no case)
    move 32 code points up; every other character is kept. *)
Definition lower_char (c : ascii) : ascii :=
  let n := N_of_ascii c in
  if ((65 <=? n) && (n <=? 90) || (192 <=? n) && (n <=? 222) && negb (n =? 215))%N
  then ascii_of_N (n + 32)
  else c.

Fixpoint lower (s : string) : string :=
  match s with
  | EmptyString => EmptyString
  | String c s' => String (lower_char c) (lower s')
  end.

(** [s.split(sep)] for a one-character separator: the pieces between the
    occurrences of [sep], in order; there is always at least one piece. *)
Fixpoint split (sep : ascii) (s : string) : list string :=
  match s with
  | EmptyString => [EmptyString]
  | String c s' =>
      if Ascii.eqb c sep then EmptyString :: split sep s'
      else match split sep s' with
           | [] => [String c EmptyString]
           | piece :: pieces => String c piece :: pieces
           end
  end.

(** [l[0]] on a list that [split] produced (never empty, see [split_cons]). *)
Definition item0 (l : list string) : string := hd EmptyString l.

(** [needle in haystack] for strings. *)
Fixpoint contains (needle haystack : string) : bool :=
  String.prefix needle haystack ||
  match haystack with
  | EmptyString => false
  | String _ rest => contains needle rest
  end.

(** Whitespace in the sense of [str.isspace], within ISO-8859-1:
    TAB..CR, FS..US, space, NEL (0x85) and the no-break space (0xA0). *)
Definition isspace (c : ascii) : bool :=
  let n := N_of_ascii c in
  ((9 <=? n) && (n <=? 13) || (28 <=? n) && (n <=? 32) || (n =? 133) || (n =? 160))%N.

Fixpoint lstrip (s : string) : string :=
  match s with
  | EmptyString => EmptyString
  | String c s' => if isspace c then lstrip s' else s
  end.

(** Drops the trailing whitespace: a character is kept when something
    non-blank follows it or it is itself non-blank. *)
Fixpoint rstrip (s : string) : string :=
  match s with
  | EmptyString => EmptyString
  | String c s' =>
      match rstrip s' with
      | EmptyString => if isspace c then EmptyString else String c EmptyString
      | kept => String c kept
      end
  end.

(** A text made of whitespace only. *)
Fixpoint blank (s : string) : bool :=
  match s with
  | EmptyString => true
  | String c s' => isspace c && blank s'
  end.

(** [s.strip()] *)
Definition strip (s : string) : string := rstrip (lstrip s).

(** [len(s)] *)
Definition len (s : string) : Z := Z.of_nat (String.length s).

(** [s[:n]] for a non-negative [n]. *)
Definition slice_to (n : nat) (s : string) : string := String.substring 0 n s.

(** The exceptions the two programs raise or catch.  [HTTPError] is a
    subclass of [URLError]; all of them are subclasses of [Exception]. *)
Inductive exn : Type :=
  | HTTPError (code : Z) (hdrs : list (string * string)) (fp : option string)
  | URLError (reason : string)
  | socket_timeout
  | BrokenPipeError
  | ValueError (msg : string)
  | JSONDecodeError
  | AttributeError (msg : string)
  | PermissionError (msg : string)
  | ProcessLookupError (msg : string)
  | FileNotFoundError (msg : string)
  | OSError (msg : string)
  | OtherException (msg : string).

(** [str(e)], as far as the handlers print or return it. *)
Definition exn_str (e : exn) : string :=
  match e with
  | HTTPError _ _ _ => "HTTP Error"
  | URLError reason => reason
  | socket_timeout => "timed out"
  | BrokenPipeError => "[Errno 32] Broken pipe"
  | JSONDecodeError => "Expecting value"
  | ValueError m | AttributeError m | PermissionError m
  | ProcessLookupError m | FileNotFoundError m | OSError m
  | OtherException m => m
  end.

(** The result of running a statement: it returns, or an exception is in
    flight. *)
Inductive outcome (A : Type) : Type :=
  | Ret (a : A)
  | Raise (e : exn).
Arguments Ret {A} a.
Arguments Raise {A} e.

(** A computation over a state [S]. *)
Definition M (S A : Type) : Type := S -> outcome A * S.

Definition ret {S A} (a : A) : M S A := fun s => (Ret a, s).
Definition raise {S A} (e : exn) : M S A := fun s => (Raise e, s).

Definition bind {S A B} (m : M S A) (k : A -> M S B) : M S B :=
  fun s =>
    match m s with
    | (Ret a, s') => k a s'
    | (Raise e, s') => (Raise e, s')
    end.

(** [try: body / except ...: handler e]; [handler] decides by the class of
    the exception and re-raises what no clause catches.  An exception raised
    by the handler itself is not caught again. *)
Definition try_except {S A} (body : M S A) (handler : exn -> M S A) : M S A :=
  fun s =>
    match body s with
    | (Ret a, s') => (Ret a, s')
    | (Raise e, s') => handler e s'
    end.

(** [try: body / except: pass] *)
Definition try_pass {S} (body : M S unit) : M S unit :=
  try_except body (fun _ => ret tt).

Definition get {S} : M S S := fun s => (Ret s, s).
Definition modify {S} (f : S -> S) : M S unit := fun s => (Ret tt, f s).

(** [for x in l: body x] *)
Fixpoint for_each {S A} (l : list A) (body : A -> M S unit) : M S unit :=
  match l with
  | [] => ret tt
  | x :: rest => bind (body x) (fun _ => for_each rest body)
  end.

End Py.

Declare Scope py_scope.
Delimit Scope py_scope with py.
Notation "x <- c1 ;; c2" := (Py.bind c1 (fun x => c2))
  (at level 100, c1 at next level, right associativity) : py_scope.
Notation "c1 ;; c2" := (Py.bind c1 (fun _ => c2))
  (at level 100, right associativity) : py_scope.

(** ** scripts/captive-portal-proxy.py *)

Module CaptivePortalProxy.
Import Py.

Definition LISTEN_PORT : Z := 80.
Definition WIFI_CONNECT_PORT : Z := 8080.
Definition WIFI_CONNECT_HOST : string := "localhost".
Definition REDIRECT_TARGET : string := "/".

(** The set literal of the source. *)
Definition PORTAL_DETECTION_PATHS : gset string :=
  {[ "/hotspot-detect.html"; "/library/test/success.html"; "/captive.apple.com";
     "/generate_204"; "/gen_204"; "/connectivitycheck.gstatic.com";
     "/connecttest.txt"; "/ncsi.txt"; "/redirect";
     "/canonical.html"; "/success.txt";
     "/check_network_status.txt"; "/nm-check-status" ]}.

Definition is_portal_detection_request (path : string) : bool :=
  let clean_path := lower (item0 (split "?" path)) in
  bool_decide (clean_path ∈ PORTAL_DETECTION_PATHS).

(** *** The connection of one request

    [http.server] buffers the status line and the headers and writes them
    to the client socket in [end_headers]; [wfile.write] and [send_error]
    write at once ([send_error] counts as one write).  A write on a socket
    whose peer is gone raises [BrokenPipeError].  The body of a backend
    response is taken as delivered once [urlopen] has returned. *)

Definition headers : Type := list (string * string).

(** [urllib.request.Request], as the handler fills it: [req_headers] lists
    the [add_header] calls in order. *)
Record Request : Type := {
  full_url : string;
  method : string;
  req_headers : headers;
  data : option string
}.

(** What [urlopen] returns: [getcode()], [headers.items()], [read()]. *)
Record Response : Type := {
  getcode : Z;
  resp_headers : headers;
  resp_read : string
}.

(** The calls a handler makes, in the order it makes them. *)
Inductive call : Type :=
  | Print (line : string)
  | Urlopen (req : Request) (timeout : Z)
  | SendResponse (code : Z)
  | SendHeader (keyword value : string)
  | EndHeaders
  | WfileWrite (body : string)
  | SendError (code : Z) (message : string).

(** The state of the handler object during one request. *)
Record conn : Type := {
  rfile : string;               (* request body bytes not read yet *)
  client_writes : option nat;   (* socket writes that still succeed; None: the client stays *)
  calls : list call             (* calls made so far *)
}.

Definition record_call (c : call) (s : conn) : conn :=
  {| rfile := rfile s; client_writes := client_writes s; calls := (calls s ++ [c])%list |}.

(** A call that only buffers or logs. *)
Definition emit (c : call) : M conn unit := modify (record_call c).

(** A call that writes to the client socket. *)
Definition sock_write (c : call) : M conn unit :=
  fun s =>
    match client_writes s with
    | Some O => (Raise BrokenPipeError, record_call c s)
    | Some (S n) =>
        (Ret tt, {| rfile := rfile s; client_writes := Some n; calls := (calls s ++ [c])%list |})
    | None => (Ret tt, record_call c s)
    end.

Definition print (line : string) : M conn unit := emit (Print line).
Definition send_response (code : Z) : M conn unit := emit (SendResponse code).
Definition send_header (keyword value : string) : M conn unit := emit (SendHeader keyword value).
Definition end_headers : M conn unit := sock_write EndHeaders.
Definition wfile_write (body : string) : M conn unit := sock_write (WfileWrite body).
Definition send_error (code : Z) (message : string) : M conn unit :=
  sock_write (SendError code message).

(** [self.rfile.read(n)] for a positive [n]: the next [n] bytes of the
    request body, fewer when the client sent fewer. *)
Definition rfile_read (n : Z) : M conn string :=
  fun s =>
    let k := Z.to_nat n in
    (Ret (String.substring 0 k (rfile s)),
     {| rfile := String.substring k (String.length (rfile s) - k) (rfile s);
        client_writes := client_writes s; calls := calls s |}).

(** [self.headers.get(name)]: the first header of that name, names compared
    without regard to case. *)
Fixpoint headers_get (name : string) (hs : headers) : option string :=
  match hs with
  | [] => None
  | (k, v) :: rest => if String.eqb (lower k) (lower name) then Some v else headers_get name rest
  end.

(** [x in [a, b, c]] on strings. *)
Definition in_list (x : string) (l : list string) : bool := bool_decide (x ∈ l).

(** [req.add_header(key, val)], recorded as the call it is: [urllib] files
    the value under [key.capitalize()] and [urlopen] adds headers of its
    own, neither of which is looked at here. *)
Definition add_header (key val : string) (req : Request) : Request :=
  {| full_url := full_url req; method := method req;
     req_headers := (req_headers req ++ [(key, val)])%list; data := data req |}.

Definition set_data (body : string) (req : Request) : Request :=
  {| full_url := full_url req; method := method req;
     req_headers := req_headers req; data := Some body |}.

(** Truth value of [body] in [if body:]: [None] and the empty byte string
    are false. *)
Definition body_truthy (body : option string) : bool :=
  match body with
  | Some b => negb (String.eqb b "")
  | None => false
  end.

Section Handler.

(** [self.path] and [self.headers] of the request being served. *)
Variable path : string.
Variable request_headers : headers.

(** The backend, as [urllib.request.urlopen(req, timeout=30)] answers. *)
Variable urlopen : Request -> outcome Response.

(** [int(v)] on a header value: [None] when it raises [ValueError]. *)
Variable py_int : string -> option Z.

Definition call_urlopen (req : Request) (timeout : Z) : M conn Response :=
  fun s => (urlopen req, record_call (Urlopen req timeout) s).

Definition handle_portal_detection (path : string) : M conn bool :=
  let clean_path := lower (item0 (split "?" path)) in
  if negb (bool_decide (clean_path ∈ PORTAL_DETECTION_PATHS)) then ret false
  else (
    print ("[PORTAL] Captive portal detection triggered: " +:+ clean_path +:+
           " -> redirect to " +:+ REDIRECT_TARGET) ;;
    try_except
      ( send_response 302 ;;
        send_header "Location" REDIRECT_TARGET ;;
        send_header "Cache-Control" "no-cache, no-store, must-revalidate" ;;
        send_header "Content-Length" "0" ;;
        end_headers )
      (fun e => match e with
                | BrokenPipeError => ret tt
                | _ => raise e
                end) ;;
    ret true)%py.

(** The "Build request" part of [proxy_request]: the request to the same
    path on WiFi Connect, with the client's headers except [Host],
    [Connection] and [Content-Length], a [Host] header for the target, and
    the body when there is one. *)
Definition build_request (method : string) (body : option string) : Request :=
  let target_url :=
    "http://" +:+ WIFI_CONNECT_HOST +:+ ":" +:+ pretty WIFI_CONNECT_PORT +:+ path in
  let req := {| full_url := target_url; method := method;
                req_headers := []; data := None |} in
  let req :=
    fold_left
      (fun r hv =>
         if negb (in_list (lower hv.1) ["host"; "connection"; "content-length"])
         then add_header hv.1 hv.2 r else r)
      request_headers req in
  let req :=
    add_header "Host" (WIFI_CONNECT_HOST +:+ ":" +:+ pretty WIFI_CONNECT_PORT) req in
  if body_truthy body then set_data (default "" body) req else req.

Definition proxy_request (method : string) (body : option string) : M conn unit :=
  let target_url :=
    "http://" +:+ WIFI_CONNECT_HOST +:+ ":" +:+ pretty WIFI_CONNECT_PORT +:+ path in
  ( print ("[PROXY] " +:+ method +:+ " " +:+ path +:+ " -> " +:+ target_url) ;;
    try_except
      ( response <- call_urlopen (build_request method body) 30 ;;
        send_response (getcode response) ;;
        for_each (resp_headers response)
          (fun hv =>
             if negb (in_list (lower hv.1)
                        ["connection"; "transfer-encoding"; "content-encoding"])
             then send_header hv.1 hv.2 else ret tt) ;;
        end_headers ;;
        wfile_write (resp_read response) )
      (fun e =>
         match e with
         | HTTPError code hdrs fp =>
             send_response code ;;
             for_each hdrs
               (fun hv =>
                  if negb (in_list (lower hv.1) ["connection"; "transfer-encoding"])
                  then send_header hv.1 hv.2 else ret tt) ;;
             end_headers ;;
             match fp with
             | Some content => wfile_write content
             | None => ret tt
             end
         | URLError _ =>
             print ("[ERROR] WiFi Connect not available: " +:+ exn_str e) ;;
             send_error 502 "WiFi Connect service unavailable"
         | socket_timeout =>
             print "[ERROR] Timeout connecting to WiFi Connect" ;;
             send_error 504 "Gateway timeout"
         | BrokenPipeError => ret tt
         | _ =>
             print ("[ERROR] Proxy error: " +:+ exn_str e) ;;
             send_error 502 "Proxy error"
         end) )%py.

Definition do_GET : M conn unit :=
  if is_portal_detection_request path
  then (handle_portal_detection path ;; ret tt)%py
  else proxy_request "GET" None.

Definition do_POST : M conn unit :=
  ( content_length <-
      match headers_get "Content-Length" request_headers with
      | None => ret 0
      | Some v =>
          match py_int v with
          | Some n => ret n
          | None => raise (ValueError ("invalid literal for int() with base 10: " +:+ v))
          end
      end ;;
    body <- (if 0 <? content_length
             then (b <- rfile_read content_length ;; ret (Some b))
             else ret None) ;;
    proxy_request "POST" body )%py.

Definition do_HEAD : M conn unit :=
  if is_portal_detection_request path
  then (handle_portal_detection path ;; ret tt)%py
  else proxy_request "HEAD" None.


End Handler.

(** What the calls of a handler amount to for the client: the status, the
    headers the handler set, and the body bytes it wrote.  The [Server] and
    [Date] lines that [http.server] adds by itself inside [send_response]
    are not calls of this program and are not listed. *)
Record client_response : Type := {
  status : Z;
  sent_headers : headers;
  sent_body : string
}.

Definition is_client_call (c : call) : bool :=
  match c with
  | Print _ | Urlopen _ _ => false
  | _ => true
  end.

Fixpoint header_block (cs : list call) : headers * list call :=
  match cs with
  | SendHeader k v :: rest =>
      let '(hs, after) := header_block rest in ((k, v) :: hs, after)
  | _ => ([], cs)
  end.

Fixpoint written (cs : list call) : option string :=
  match cs with
  | [] => Some ""
  | WfileWrite b :: rest => (fun tail => b +:+ tail) <$> written rest
  | _ => None
  end.

Definition response_of (cs : list call) : option client_response :=
  match List.filter is_client_call cs with
  | SendResponse code :: rest =>
      let '(hs, after) := header_block rest in
      match after with
      | EndHeaders :: writes =>
          (fun b => {| status := code; sent_headers := hs; sent_body := b |}) <$> written writes
      | _ => None
      end
  | _ => None
  end.

(** The calls a handler made between two states of the connection. *)
Definition served (before after : conn) : list call :=
  drop (length (calls before)) (calls after).

(** The calls of the interception answer. *)
Definition redirect_calls : list call :=
  [ SendResponse 302;
    SendHeader "Location" "/";
    SendHeader "Cache-Control" "no-cache, no-store, must-revalidate";
    SendHeader "Content-Length" "0";
    EndHeaders ].


(** The header lines among a list of calls. *)
Definition header_calls (cs : list call) : headers :=
  omap (fun c => match c with SendHeader k v => Some (k, v) | _ => None end) cs.

(** The connection with another trace. *)
Definition with_calls (st : conn) (cs : list call) : conn :=
  {| rfile := rfile st; client_writes := client_writes st; calls := cs |}.

(** A computation that only adds calls to the trace. *)
Definition appends {A} (m : M conn A) : Prop :=
  forall st, exists cs, calls (snd (m st)) = calls st ++ cs.

(** The two answers of the classifier, as the design document names them. *)
Inductive decision : Type := Intercept | Passthrough.

Definition classify (rawPath : string) : decision :=
  if is_portal_detection_request rawPath then Intercept else Passthrough.

(** The classifier in the words of the design document: strip everything
    from the first question mark onward, lowercase the remainder, and compare
    with the thirteen listed paths. *)
Fixpoint strip_query (s : string) : string :=
  match s with
  | EmptyString => EmptyString
  | String c s' => if Ascii.eqb c "?" then EmptyString else String c (strip_query s')
  end.

Definition detection_path_list : list string :=
  [ "/hotspot-detect.html"; "/library/test/success.html"; "/captive.apple.com";
    "/generate_204"; "/gen_204"; "/connectivitycheck.gstatic.com";
    "/connecttest.txt"; "/ncsi.txt"; "/redirect"; "/canonical.html";
    "/success.txt"; "/check_network_status.txt"; "/nm-check-status" ].

Definition normalize (rawPath : string) : string := lower (strip_query rawPath).

End CaptivePortalProxy.

(** ** scripts/config-server.py: the test-process handlers *)

Module ConfigServer.
Import Py.

(** A decoded JSON document.  A float matters to the handlers only through
    its truth value. *)
Inductive json : Type :=
  | JNull
  | JBool (b : bool)
  | JInt (n : Z)
  | JFloat (nonzero : bool)
  | JStr (s : string)
  | JArr (items : list json)
  | JObj (members : list (string * json)).

(** Truth value of a decoded document, as [not command] tests it. *)
Definition truthy (v : json) : bool :=
  match v with
  | JNull => false
  | JBool b => b
  | JInt n => negb (n =? 0)
  | JFloat nonzero => nonzero
  | JStr s => negb (String.eqb s "")
  | JArr items => match items with [] => false | _ => true end
  | JObj members => match members with [] => false | _ => true end
  end.

(** Lookup in the dict [json.loads] builds from an object: of two members
    with the same name the later one stays. *)
Fixpoint members_get (key : string) (members : list (string * json)) : option json :=
  match members with
  | [] => None
  | (k, v) :: rest =>
      match members_get key rest with
      | Some later => Some later
      | None => if String.eqb k key then Some v else None
      end
  end.

(** The Popen object of a started command. *)
Record Popen : Type := { pid : Z }.

(** One entry of the registry: the dict literal of [handle_test_command]. *)
Record proc_info : Type := {
  process : Popen;
  output_file : string;
  output_handle : nat;
  start_time : Z;
  command : string
}.

Inductive signal : Type := SIGTERM | SIGKILL.

(** What the handlers ask of the operating system, in order. *)
Inductive os_call : Type :=
  | Print (line : string)
  | NamedTemporaryFile (suffix : string)
  | OpenW (name : string)
  | PopenShell (cmd : string) (stdout : nat) (cwd : string) (* shell=True, stderr=STDOUT, setsid *)
  | Read (name : string)
  | Poll (p : Z)
  | Getpgid (p : Z)
  | Killpg (pgid : Z) (sig : signal)
  | Sleep (seconds : Z)
  | Terminate (p : Z)
  | Kill (p : Z)
  | Close (handle : nat)
  | Unlink (name : string).

(** The server process and what it owns. *)
Record world : Type := {
  TEST_PROCESSES : gmap string proc_info;  (* the registry, keyed by str(pid) *)
  files : gset string;                     (* names of the files that exist *)
  open_handles : gset nat;                 (* file objects not closed yet *)
  trace : list os_call;                    (* calls made so far *)
  sent : list (Z * json)                   (* send_json_response(data, status) calls *)
}.

Definition set_registry (f : gmap string proc_info -> gmap string proc_info) (w : world) : world :=
  {| TEST_PROCESSES := f (TEST_PROCESSES w); files := files w;
     open_handles := open_handles w; trace := trace w; sent := sent w |}.

Definition set_files (f : gset string -> gset string) (w : world) : world :=
  {| TEST_PROCESSES := TEST_PROCESSES w; files := f (files w);
     open_handles := open_handles w; trace := trace w; sent := sent w |}.

Definition set_handles (f : gset nat -> gset nat) (w : world) : world :=
  {| TEST_PROCESSES := TEST_PROCESSES w; files := files w;
     open_handles := f (open_handles w); trace := trace w; sent := sent w |}.

Definition log_call (c : os_call) (w : world) : world :=
  {| TEST_PROCESSES := TEST_PROCESSES w; files := files w;
     open_handles := open_handles w; trace := trace w ++ [c]; sent := sent w |}.

Definition send_json_response (data : json) (status : Z) : M world unit :=
  modify (fun w =>
    {| TEST_PROCESSES := TEST_PROCESSES w; files := files w;
       open_handles := open_handles w; trace := trace w;
       sent := sent w ++ [(status, data)] |}).

Definition print (line : string) : M world unit := modify (log_call (Print line)).

(** A call whose answer the operating system decides. *)
Definition os_ask {A} (c : os_call) (answer : outcome A) : M world A :=
  fun w => (answer, log_call c w).

(** [data.get('command', '')]: only a dict has [get]. *)
Definition data_get (data : json) (key : string) (dflt : json) : M world json :=
  match data with
  | JObj members => ret (default dflt (members_get key members))
  | _ => raise (AttributeError "object has no attribute 'get'")
  end.

(** [command.strip()]: only a str has [strip]. *)
Definition command_strip (command : json) : M world string :=
  match command with
  | JStr s => ret (strip s)
  | _ => raise (AttributeError "object has no attribute 'strip'")
  end.

(** What the operating system answers while a command is started. *)
Record spawn_env : Type := {
  tmp_name : outcome string;   (* NamedTemporaryFile(...).name *)
  opened : outcome nat;        (* open(output_filename, 'w') *)
  started : outcome Z;         (* subprocess.Popen(...).pid *)
  now : Z                      (* time.time() *)
}.

(** [tempfile.NamedTemporaryFile(mode='w+', delete=False, suffix='.log')],
    its [name], and [close()]: the file stays. *)
Definition named_temporary_file (env : spawn_env) : M world string :=
  fun w =>
    let w := log_call (NamedTemporaryFile ".log") w in
    match tmp_name env with
    | Ret name => (Ret name, set_files (fun fs => {[name]} ∪ fs) w)
    | Raise e => (Raise e, w)
    end.

(** [open(output_filename, 'w')] *)
Definition open_w (env : spawn_env) (name : string) : M world nat :=
  fun w =>
    let w := log_call (OpenW name) w in
    match opened env with
    | Ret h => (Ret h, set_handles (fun hs => {[h]} ∪ hs) (set_files (fun fs => {[name]} ∪ fs) w))
    | Raise e => (Raise e, w)
    end.

(** [output_handle.close()]; closing twice is allowed. *)
Definition close (h : nat) : M world unit :=
  modify (fun w => set_handles (fun hs => hs ∖ {[h]}) (log_call (Close h) w)).

(** [os.unlink(name)] *)
Definition unlink (name : string) : M world unit :=
  fun w =>
    let w := log_call (Unlink name) w in
    if bool_decide (name ∈ files w)
    then (Ret tt, set_files (fun fs => fs ∖ {[name]}) w)
    else (Raise (FileNotFoundError name), w).

(** "Detect if this is a GUI app" *)
Definition is_gui (command : string) : bool :=
  contains "chromium" (lower command) || contains "firefox" (lower command)
  || contains "DISPLAY=" command.

(** "Build the test command": the display variables are exported ahead of
    a GUI command. *)
Definition test_cmd (command : string) : string :=
  if is_gui command
  then "export DISPLAY=:0; export XAUTHORITY=/home/pi/.Xauthority; " +:+ command
  else command.

(** [post_data] is the posted document after [json.loads]: [None] when the
    decoder raises [JSONDecodeError]. *)
Definition handle_test_command (post_data : option json) (env : spawn_env) : M world unit :=
  try_except
    ( data <- match post_data with
              | Some d => ret d
              | None => raise JSONDecodeError
              end ;;
      command <- data_get data "command" (JStr "") ;;
      if negb (truthy command)
      then send_json_response (JObj [("error", JStr "No command provided")]) 400
      else
        command <- command_strip command ;;
        if 4096 <? len command
        then send_json_response (JObj [("error", JStr "Command too long (max 4096 chars)")]) 400
        else
          w <- get ;;
          if 5 <=? Z.of_nat (size (TEST_PROCESSES w))
          then send_json_response (JObj [("error", JStr "Too many test processes running")]) 429
          else
            print ("[TEST] Running command: " +:+ slice_to 100 command +:+
                   (if 100 <? len command then "..." else "")) ;;
            output_filename <- named_temporary_file env ;;
            output_handle <- open_w env output_filename ;;
            process_pid <-
              os_ask (PopenShell (test_cmd command) output_handle "/tmp") (started env) ;;
            modify (set_registry
                      (insert (pretty process_pid)
                         {| process := {| pid := process_pid |};
                            output_file := output_filename;
                            output_handle := output_handle;
                            start_time := now env;
                            command := slice_to 100 command |})) ;;
            send_json_response
              (JObj [("pid", JInt process_pid); ("message", JStr "Test started")]) 200 )%py
    (fun e =>
       match e with
       | JSONDecodeError => send_json_response (JObj [("error", JStr "Invalid JSON")]) 400
       | _ =>
           ( print ("[ERROR] Test command failed: " +:+ exn_str e) ;;
             send_json_response (JObj [("error", JStr (exn_str e))]) 500 )%py
       end).

(** What the operating system answers while output is queried.  The
    output file is read as text; [read_output] raises when it cannot be
    read or decoded. *)
Record poll_env : Type := {
  read_output : outcome string;   (* open(output_file, 'r').read() *)
  poll_result : option Z          (* process.poll(): None while the process runs *)
}.

Definition handle_test_output (pid_str : string) (env : poll_env) : M world unit :=
  try_except
    ( w <- get ;;
      match TEST_PROCESSES w !! pid_str with
      | None => send_json_response (JObj [("error", JStr "Process not found")]) 404
      | Some proc_info =>
          output <- (if bool_decide (output_file proc_info ∈ files w)
                     then os_ask (Read (output_file proc_info)) (read_output env)
                     else ret "") ;;
          poll_result <- os_ask (Poll (pid (process proc_info))) (Ret (poll_result env)) ;;
          let running := match poll_result with None => true | Some _ => false end in
          let response :=
            JObj [("output", JStr output); ("running", JBool running);
                  ("exit_code", match poll_result with Some rc => JInt rc | None => JNull end)] in
          (if negb running
           then ( try_pass (close (output_handle proc_info)) ;;
                  try_pass (unlink (output_file proc_info)) ;;
                  modify (set_registry (delete pid_str)) )
           else ret tt) ;;
          send_json_response response 200
      end )%py
    (fun e => send_json_response (JObj [("error", JStr (exn_str e))]) 500).

(** What the operating system answers while a command is stopped. *)
Record stop_env : Type := {
  getpgid_term : outcome Z;          (* os.getpgid(pid), before SIGTERM *)
  killpg_term : outcome unit;        (* os.killpg(pgid, SIGTERM) *)
  poll_after_term : option Z;        (* process.poll() after the grace interval *)
  getpgid_kill : outcome Z;          (* os.getpgid(pid), before SIGKILL *)
  killpg_kill : outcome unit;        (* os.killpg(pgid, SIGKILL) *)
  terminate : outcome unit;          (* process.terminate() *)
  poll_after_terminate : option Z;   (* process.poll() after the second wait *)
  kill : outcome unit                (* process.kill() *)
}.

Definition handle_stop_test (pid_str : string) (env : stop_env) : M world unit :=
  try_except
    ( w <- get ;;
      match TEST_PROCESSES w !! pid_str with
      | None => send_json_response (JObj [("error", JStr "Process not found")]) 404
      | Some proc_info =>
          let p := pid (process proc_info) in
          try_except
            ( pgid <- os_ask (Getpgid p) (getpgid_term env) ;;
              os_ask (Killpg pgid SIGTERM) (killpg_term env) ;;
              os_ask (Sleep 1) (Ret tt) ;;
              alive <- os_ask (Poll p) (Ret (poll_after_term env)) ;;
              match alive with
              | None =>
                  pgid <- os_ask (Getpgid p) (getpgid_kill env) ;;
                  os_ask (Killpg pgid SIGKILL) (killpg_kill env)
              | Some _ => ret tt
              end )
            (fun _ =>
               os_ask (Terminate p) (terminate env) ;;
               os_ask (Sleep 1) (Ret tt) ;;
               alive <- os_ask (Poll p) (Ret (poll_after_terminate env)) ;;
               match alive with
               | None => os_ask (Kill p) (kill env)
               | Some _ => ret tt
               end) ;;
          try_pass (close (output_handle proc_info)) ;;
          try_pass (unlink (output_file proc_info)) ;;
          modify (set_registry (delete pid_str)) ;;
          send_json_response (JObj [("success", JBool true)]) 200
      end )%py
    (fun e => send_json_response (JObj [("error", JStr (exn_str e))]) 500).

(** The world after one more answer was sent. *)
Definition answered (w : world) (status : Z) (data : json) : world :=
  {| TEST_PROCESSES := TEST_PROCESSES w; files := files w;
     open_handles := open_handles w; trace := trace w;
     sent := sent w ++ [(status, data)] |}.

(** The world after a command was started. *)
Definition spawned (w : world) (c name : string) (h : nat) (p t : Z) : world :=
  {| TEST_PROCESSES :=
       <[pretty p := {| process := {| pid := p |}; output_file := name;
                        output_handle := h; start_time := t;
                        command := slice_to 100 c |}]> (TEST_PROCESSES w);
     files := {[name]} ∪ ({[name]} ∪ files w);
     open_handles := {[h]} ∪ open_handles w;
     trace := trace w ++
              [ Print ("[TEST] Running command: " +:+ slice_to 100 c +:+
                       (if 100 <? len c then "..." else ""));
                NamedTemporaryFile ".log"; OpenW name;
                PopenShell (test_cmd c) h "/tmp" ];
     sent := sent w ++ [(200, JObj [("pid", JInt p); ("message", JStr "Test started")])] |}.

(** The world after the sink of [info] was released and the entry [id]
    removed. *)
Definition reaped (w : world) (id : string) (info : proc_info) (cs : list os_call)
    (answer : json) : world :=
  {| TEST_PROCESSES := delete id (TEST_PROCESSES w);
     files := files w ∖ {[output_file info]};
     open_handles := open_handles w ∖ {[output_handle info]};
     trace := trace w ++ cs ++ [Close (output_handle info); Unlink (output_file info)];
     sent := sent w ++ [(200, answer)] |}.

(** A text of 4097 characters: [ls] followed by 4095 spaces. *)
Definition padded_ls : string :=
  "ls" +:+ string_of_list_ascii (repeat " "%char 4095).

(** One request to the test-process routes, with what the operating system
    answers while it is served. *)
Inductive request : Type :=
  | TestCommand (post_data : option json) (env : spawn_env)
  | TestOutput (pid_str : string) (env : poll_env)
  | StopTest (pid_str : string) (env : stop_env).

(** The server handles one request at a time ([HTTPServer] is not
    threaded): a request takes the world to the next one. *)
Definition serve (r : request) (w : world) : world :=
  match r with
  | TestCommand post_data env => snd (handle_test_command post_data env w)
  | TestOutput pid_str env => snd (handle_test_output pid_str env w)
  | StopTest pid_str env => snd (handle_stop_test pid_str env w)
  end.

Definition serve_all (rs : list request) (w : world) : world :=
  fold_left (fun w r => serve r w) rs w.

(** The request starts a command to which the operating system gives the
    process id written [id]. *)
Definition starts_as (id : string) (r : request) : Prop :=
  match r with
  | TestCommand _ env => exists p, started env = Ret p /\ pretty p = id
  | _ => False
  end.

(** The answers sent between two worlds. *)
Definition answers (before after : world) : list (Z * json) :=
  drop (length (sent before)) (sent after).

End ConfigServer.

(** ** Statements about the registry *)

Module ConfigServerInvariants.
Import Py ConfigServer.

(** The registry is keyed by the decimal process id of each entry. *)
Definition keyed_by_pid (reg : gmap string proc_info) : Prop :=
  forall id info, reg !! id = Some info -> id = pretty (pid (process info)).

End ConfigServerInvariants.

(** ** scripts/captive-portal-proxy.py: waiting for the backend at startup *)

Module ProxyStartup.
Import Py.

(** What the startup code does, in order. *)
Inductive step : Type :=
  | Print (line : string)
  | ConnectEx (host : string) (port : Z) (timeout : Z)   (* settimeout, connect_ex, close *)
  | Sleep (seconds : Z).

(** The calls made so far; the number of probes made indexes the answers
    of the network. *)
Record startup : Type := {
  probes : nat;
  steps : list step
}.

Definition log_step (c : step) (s : startup) : startup :=
  {| probes := probes s; steps := steps s ++ [c] |}.

Definition print (line : string) : M startup unit := modify (log_step (Print line)).

(** [time.sleep(seconds)]; a negative length is refused. *)
Definition sleep (seconds : Z) : M startup unit :=
  if seconds <? 0 then raise (ValueError "sleep length must be non-negative")
  else modify (log_step (Sleep seconds)).

Section Probe.

(** [connect_ex n] is what the n-th [sock.connect_ex] returns: 0 when the
    connection was made, an error number otherwise. *)
Variable connect_ex : nat -> Z.

Definition check_wifi_connect_available : M startup bool :=
  fun s =>
    let result := connect_ex (probes s) in
    (Ret (result =? 0),
     {| probes := S (probes s);
        steps := steps s ++ [ConnectEx CaptivePortalProxy.WIFI_CONNECT_HOST
                               CaptivePortalProxy.WIFI_CONNECT_PORT 1] |}).

(** The body of [for attempt in range(max_attempts)], from [attempt] on
    with [remaining] rounds to go, and what follows the loop. *)
Fixpoint attempts (remaining : nat) (attempt max_attempts delay : Z) : M startup bool :=
  match remaining with
  | O =>
      ( print "WARNING: WiFi Connect not available, but starting proxy anyway" ;;
        ret false )%py
  | S remaining' =>
      ( available <- check_wifi_connect_available ;;
        if available
        then
          print ("WiFi Connect is available on port " +:+
                 pretty CaptivePortalProxy.WIFI_CONNECT_PORT) ;;
          ret true
        else
          print ("  Attempt " +:+ pretty (attempt + 1) +:+ "/" +:+ pretty max_attempts +:+
                 ": WiFi Connect not ready...") ;;
          sleep delay ;;
          attempts remaining' (attempt + 1) max_attempts delay )%py
  end.

Definition wait_for_wifi_connect (max_attempts delay : Z) : M startup bool :=
  ( print ("Waiting for WiFi Connect on port " +:+
           pretty CaptivePortalProxy.WIFI_CONNECT_PORT +:+ "...") ;;
    attempts (Z.to_nat max_attempts) 0 max_attempts delay )%py.

End Probe.

(** The probes and the waits among the steps taken. *)
Definition probes_made (cs : list step) : nat :=
  length (List.filter (fun c => match c with ConnectEx _ _ _ => true | _ => false end) cs).

Definition waits (cs : list step) : list Z :=
  omap (fun c => match c with Sleep d => Some d | _ => None end) cs.

(** The first of the next [n] probes, counted from probe [from], that is
    answered with 0. *)
Fixpoint first_success (connect_ex : nat -> Z) (from n : nat) : option nat :=
  match n with
  | O => None
  | S n' => if connect_ex from =? 0 then Some O
            else S <$> first_success connect_ex (S from) n'
  end.

End ProxyStartup.

(** ** scripts/config-server.py: releasing the test processes at exit *)

Module ConfigServerShutdown.
Import Py ConfigServer.

(** What the operating system answers for one entry while the registry is
    cleared. *)
Record exit_env : Type := {
  poll_at_exit : option Z;          (* process.poll() *)
  getpgid_at_exit : outcome Z;      (* os.getpgid(process.pid) *)
  killpg_at_exit : outcome unit     (* os.killpg(pgid, signal.SIGTERM) *)
}.

(** The body of the loop of [cleanup_test_processes] for one item.  The
    entries are the dict literals of [handle_test_command], so
    ['output_handle' in proc_info] holds. *)
Definition cleanup_entry (env : string -> exit_env) (item : string * proc_info) : M world unit :=
  let pid_str := fst item in
  let proc_info := snd item in
  ( try_pass
      ( let process := process proc_info in
        alive <- os_ask (Poll (pid process)) (Ret (poll_at_exit (env pid_str))) ;;
        match alive with
        | None =>
            pgid <- os_ask (Getpgid (pid process)) (getpgid_at_exit (env pid_str)) ;;
            os_ask (Killpg pgid SIGTERM) (killpg_at_exit (env pid_str))
        | Some _ => ret tt
        end ) ;;
    try_pass (close (output_handle proc_info)) ;;
    try_pass (unlink (output_file proc_info)) )%py.

(** [items] is [list(TEST_PROCESSES.items())]: the entries in the order in
    which they were inserted, which the registry as a finite map does not
    record. *)
Definition cleanup_test_processes (env : string -> exit_env)
    (items : list (string * proc_info)) : M world unit :=
  ( for_each items (cleanup_entry env) ;;
    modify (set_registry (fun _ => ∅)) )%py.

(** The calls made for one entry. *)
Definition entry_calls (env : string -> exit_env) (item : string * proc_info) : list os_call :=
  let p := pid (process (snd item)) in
  Poll p ::
  match poll_at_exit (env (fst item)) with
  | None =>
      Getpgid p ::
      match getpgid_at_exit (env (fst item)) with
      | Ret pgid => [Killpg pgid SIGTERM]
      | Raise _ => []
      end
  | Some _ => []
  end ++ [Close (output_handle (snd item)); Unlink (output_file (snd item))].

(** The calls made between two worlds. *)
Definition calls_between (before after : world) : list os_call :=
  drop (length (trace before)) (trace after).

End ConfigServerShutdown.

(** ** scripts/config-server.py: service control and display power *)

Module ConfigServerCommands.
Import Py ConfigServer.

(** The result of [subprocess.run(..., capture_output=True, text=True)]. *)
Record CompletedProcess : Type := {
  returncode : Z;
  stdout : string;
  stderr : string
}.

(** What a handler has run and answered: the argument vectors given to
    [subprocess.run] (no shell is involved) with their timeouts, and the
    [send_json_response(data, status)] calls. *)
Record host : Type := {
  ran : list (list string * Z);
  replied : list (Z * json)
}.

Definition send_json_response (data : json) (status : Z) : M host unit :=
  modify (fun h => {| ran := ran h; replied := replied h ++ [(status, data)] |}).

(** [subprocess.run(argv, capture_output=True, text=True, timeout=timeout)];
    the operating system decides the result, a timeout is an exception. *)
Definition subprocess_run (argv : list string) (timeout : Z)
    (result : outcome CompletedProcess) : M host CompletedProcess :=
  fun h => (result, {| ran := ran h ++ [(argv, timeout)]; replied := replied h |}).

(** [json.loads(post_data)] *)
Definition json_loads (post_data : option json) : M host json :=
  match post_data with
  | Some d => ret d
  | None => raise JSONDecodeError
  end.

(** [data.get(key)] and [data.get(key, dflt)]: only a dict has [get]. *)
Definition data_get (data : json) (key : string) (dflt : json) : M host json :=
  match data with
  | JObj members => ret (default dflt (members_get key members))
  | _ => raise (AttributeError "object has no attribute 'get'")
  end.

(** [value in [s1, s2, ...]] for a list of strings: only an equal string
    is found. *)
Definition in_strings (value : json) (l : list string) : bool :=
  match value with
  | JStr s => bool_decide (s ∈ l)
  | _ => false
  end.

(** The str behind a value that was found in a list of strings. *)
Definition text_of (value : json) : string :=
  match value with
  | JStr s => s
  | _ => ""
  end.

Definition SERVICES : list string :=
  ["wifi-connect"; "wifi-connect-manager"; "ossuary-startup"; "ossuary-web"].

Definition ACTIONS : list string := ["start"; "stop"; "restart"].

(** What the operating system answers to the two [systemctl] runs. *)
Record service_env : Type := {
  run_action : outcome CompletedProcess;
  run_is_active : outcome CompletedProcess
}.

Definition handle_service_control (post_data : option json) (env : service_env) : M host unit :=
  try_except
    ( data <- json_loads post_data ;;
      service <- data_get data "service" JNull ;;
      action <- data_get data "action" JNull ;;
      if negb (in_strings service SERVICES)
      then send_json_response (JObj [("error", JStr "Invalid service")]) 400
      else if negb (in_strings action ACTIONS)
      then send_json_response (JObj [("error", JStr "Invalid action")]) 400
      else
        result <- subprocess_run ["systemctl"; text_of action; text_of service] 10
                    (run_action env) ;;
        status_result <- subprocess_run ["systemctl"; "is-active"; text_of service] 2
                           (run_is_active env) ;;
        send_json_response
          (JObj [("success", JBool (returncode result =? 0));
                 ("service", service);
                 ("action", action);
                 ("new_status", JStr (strip (stdout status_result)));
                 ("output", JStr (stdout result +:+ stderr result))]) 200 )%py
    (fun e => send_json_response (JObj [("error", JStr (exn_str e))]) 500).

Definition handle_get_display_power (run_vcgencmd : outcome CompletedProcess) : M host unit :=
  try_except
    ( result <- subprocess_run ["vcgencmd"; "display_power"] 5 run_vcgencmd ;;
      if returncode result =? 0
      then
        let output := strip (stdout result) in
        let power_on := contains "=1" output in
        send_json_response
          (JObj [("power", JStr (if power_on then "on" else "off")); ("raw", JStr output)]) 200
      else
        send_json_response
          (JObj [("error", JStr "vcgencmd not available"); ("power", JStr "unknown")]) 500 )%py
    (fun e => send_json_response (JObj [("error", JStr (exn_str e))]) 500).

(** The double-quote character, U+0022. *)
Definition dquote : string := String (ascii_of_N 34) EmptyString.

(** [data.get('power', '').lower()]: only a str has [lower]. *)
Definition power_lower (power : json) : M host string :=
  match power with
  | JStr s => ret (lower s)
  | _ => raise (AttributeError "object has no attribute 'lower'")
  end.

Definition handle_set_display_power (post_data : option json)
    (run_vcgencmd : outcome CompletedProcess) : M host unit :=
  try_except
    ( data <- json_loads post_data ;;
      power <- data_get data "power" (JStr "") ;;
      power <- power_lower power ;;
      if negb (bool_decide (power ∈ ["on"; "off"; "1"; "0"]))
      then send_json_response
             (JObj [("error", JStr ("power must be " +:+ dquote +:+ "on" +:+ dquote +:+
                                    " or " +:+ dquote +:+ "off" +:+ dquote))]) 400
      else
        let power_value := if bool_decide (power ∈ ["on"; "1"]) then "1" else "0" in
        result <- subprocess_run ["vcgencmd"; "display_power"; power_value] 5 run_vcgencmd ;;
        if returncode result =? 0
        then
          send_json_response
            (JObj [("success", JBool true);
                   ("power", JStr (if String.eqb power_value "1" then "on" else "off"))]) 200
        else
          send_json_response
            (JObj [("error", JStr "Failed to set display power");
                   ("details", JStr (stderr result))]) 500 )%py
    (fun e =>
       match e with
       | JSONDecodeError => send_json_response (JObj [("error", JStr "Invalid JSON")]) 400
       | _ => send_json_response (JObj [("error", JStr (exn_str e))]) 500
       end).

(** The runs and the answers between two states. *)
Definition ran_between (before after : host) : list (list string * Z) :=
  drop (length (ran before)) (ran after).

Definition replied_between (before after : host) : list (Z * json) :=
  drop (length (replied before)) (replied after).

End ConfigServerCommands.

(** ** scripts/config-server.py: routing of GET and POST requests *)

Module ConfigServerRouting.
Import Py.

(** [s.lstrip(c)], [s.rstrip(c)] and [s.strip(c)] for a one-character set. *)
Fixpoint lstrip_char (c : ascii) (s : string) : string :=
  match s with
  | EmptyString => EmptyString
  | String a s' => if Ascii.eqb a c then lstrip_char c s' else s
  end.

Fixpoint rstrip_char (c : ascii) (s : string) : string :=
  match s with
  | EmptyString => EmptyString
  | String a s' =>
      match rstrip_char c s' with
      | EmptyString => if Ascii.eqb a c then EmptyString else String a EmptyString
      | kept => String a kept
      end
  end.

Definition strip_char (c : ascii) (s : string) : string := rstrip_char c (lstrip_char c s).

(** [IndexError: list index out of range] *)
Definition IndexError : exn := OtherException "list index out of range".

(** What a request is handed to: the method of [ConfigHandler] that is
    called, with its arguments. *)
Module Target.
Inductive t : Type :=
  | SimpleHTTPRequestHandler_do_GET (self_path : string)
  | send_json_response (error : string) (status : Z)
  | handle_status
  | handle_get_startup
  | handle_get_services
  | handle_get_behaviors
  | handle_get_profiles
  | handle_get_config
  | handle_system_info
  | handle_get_schedule
  | handle_get_timezone
  | handle_get_saved_networks
  | handle_get_nearby_networks
  | handle_get_logs (log_type : string)
  | handle_test_output (pid_str : string)
  | handle_screenshot
  | handle_get_display_power
  | handle_get_nearby_networks_compat
  | handle_save_startup (post_data : string)
  | handle_service_control (post_data : string)
  | handle_test_command (post_data : string)
  | handle_save_behaviors (post_data : string)
  | handle_process_refresh
  | handle_process_restart
  | handle_process_stop
  | handle_process_start
  | handle_clear_startup
  | handle_system_reboot
  | handle_save_schedule (post_data : string)
  | handle_set_timezone (post_data : string)
  | handle_save_network (post_data : string)
  | handle_delete_network (post_data : string)
  | handle_connect_saved_network (post_data : string)
  | handle_set_display_power (post_data : string)
  | handle_wifi_connect (post_data : string)
  | handle_stop_test (pid_str : string).
End Target.

Section Request.

(** The request target as received, and [urlparse(self.path).path] once
    [urlparse] has returned: [do_GET] and [do_POST] below are the two
    methods from their second line on, [ConfigHandler.do_GET] and
    [ConfigHandler.do_POST] further down the methods from their first. *)
Variable self_path : string.
Variable path : string.

Definition path_parts : list string := split "/" (strip_char "/" path).

(** [path_parts[i]] *)
Definition part (i : nat) : outcome string :=
  match path_parts !! i with
  | Some p => Ret p
  | None => Raise IndexError
  end.

(** [path_parts[0] == 'api' and path_parts[1] == name]: the second index
    is evaluated only when the first comparison holds. *)
Definition api_route (name : string) : outcome bool :=
  match part 0 with
  | Ret p0 =>
      if String.eqb p0 "api"
      then match part 1 with
           | Ret p1 => Ret (String.eqb p1 name)
           | Raise e => Raise e
           end
      else Ret false
  | Raise e => Raise e
  end.

Definition do_GET : outcome Target.t :=
  if String.eqb path "/" then Ret (Target.SimpleHTTPRequestHandler_do_GET "/index.html")
  else if String.prefix "/api/" path then
    if String.eqb path "/api/status" then Ret Target.handle_status
    else if String.eqb path "/api/startup" then Ret Target.handle_get_startup
    else if String.eqb path "/api/services" then Ret Target.handle_get_services
    else if String.eqb path "/api/behaviors" then Ret Target.handle_get_behaviors
    else if String.eqb path "/api/profiles" then Ret Target.handle_get_profiles
    else if String.eqb path "/api/config" then Ret Target.handle_get_config
    else if String.eqb path "/api/system/info" then Ret Target.handle_system_info
    else if String.eqb path "/api/schedule" then Ret Target.handle_get_schedule
    else if String.eqb path "/api/timezone" then Ret Target.handle_get_timezone
    else if String.eqb path "/api/saved-networks" then Ret Target.handle_get_saved_networks
    else if String.eqb path "/api/nearby-networks" then Ret Target.handle_get_nearby_networks
    else
      match api_route "logs" with
      | Raise e => Raise e
      | Ret true =>
          match path_parts with
          | _ :: _ :: log_type :: _ => Ret (Target.handle_get_logs log_type)
          | _ => Ret (Target.send_json_response "Log type required" 400)
          end
      | Ret false =>
          match api_route "test-output" with
          | Raise e => Raise e
          | Ret true =>
              match path_parts with
              | _ :: _ :: pid_str :: _ => Ret (Target.handle_test_output pid_str)
              | _ => Ret (Target.send_json_response "PID required" 400)
              end
          | Ret false =>
              if String.eqb path "/api/screenshot" then Ret Target.handle_screenshot
              else if String.eqb path "/api/display/power"
              then Ret Target.handle_get_display_power
              else Ret (Target.send_json_response "Not found" 404)
          end
      end
  else if String.eqb path "/startup" then Ret Target.handle_get_startup
  else if String.eqb path "/status" then Ret Target.handle_status
  else if String.eqb path "/networks" then Ret Target.handle_get_nearby_networks_compat
  else Ret (Target.SimpleHTTPRequestHandler_do_GET self_path).

(** The request headers, [int()] on a header value, and the bytes waiting
    on the connection. *)
Variable request_headers : list (string * string).
Variable py_int : string -> option Z.
Variable rfile : string.

(** [int(self.headers.get('Content-Length', 0))] *)
Definition content_length : outcome Z :=
  match CaptivePortalProxy.headers_get "Content-Length" request_headers with
  | None => Ret 0
  | Some v =>
      match py_int v with
      | Some n => Ret n
      | None => Raise (ValueError ("invalid literal for int() with base 10: " +:+ v))
      end
  end.

(** [self.rfile.read(content_length) if content_length > 0 else b'{}'] *)
Definition read_post_data (n : Z) : string :=
  if 0 <? n then String.substring 0 (Z.to_nat n) rfile else "{}".

Definition do_POST : outcome Target.t :=
  match content_length with
  | Raise e => Raise e
  | Ret n =>
      let post_data := read_post_data n in
      if String.eqb path "/api/startup" then Ret (Target.handle_save_startup post_data)
      else if String.eqb path "/api/service-control"
      then Ret (Target.handle_service_control post_data)
      else if String.eqb path "/api/test-command" then Ret (Target.handle_test_command post_data)
      else if String.eqb path "/api/behaviors" then Ret (Target.handle_save_behaviors post_data)
      else if String.eqb path "/api/process/refresh" then Ret Target.handle_process_refresh
      else if String.eqb path "/api/process/restart" then Ret Target.handle_process_restart
      else if String.eqb path "/api/process/stop" then Ret Target.handle_process_stop
      else if String.eqb path "/api/process/start" then Ret Target.handle_process_start
      else if String.eqb path "/api/startup/clear" then Ret Target.handle_clear_startup
      else if String.eqb path "/api/system/reboot" then Ret Target.handle_system_reboot
      else if String.eqb path "/api/schedule" then Ret (Target.handle_save_schedule post_data)
      else if String.eqb path "/api/timezone" then Ret (Target.handle_set_timezone post_data)
      else if String.eqb path "/api/saved-networks"
      then Ret (Target.handle_save_network post_data)
      else if String.eqb path "/api/saved-networks/delete"
      then Ret (Target.handle_delete_network post_data)
      else if String.eqb path "/api/saved-networks/connect"
      then Ret (Target.handle_connect_saved_network post_data)
      else if String.eqb path "/api/display/power"
      then Ret (Target.handle_set_display_power post_data)
      else if String.eqb path "/connect" then Ret (Target.handle_wifi_connect post_data)
      else
        match api_route "stop-test" with
        | Raise e => Raise e
        | Ret true =>
            match path_parts with
            | _ :: _ :: pid_str :: _ => Ret (Target.handle_stop_test pid_str)
            | _ => Ret (Target.send_json_response "PID required" 400)
            end
        | Ret false =>
            if String.eqb path "/startup" then Ret (Target.handle_save_startup post_data)
            else Ret (Target.send_json_response "Not found" 404)
        end
  end.

End Request.

(** The two methods from their first line, [parsed_path = urlparse(self.path)]:
    [urlparse target] is the [path] of the result, or the exception that
    [urlparse] raises for a target it cannot split (a ValueError, for an
    unbalanced bracket in the authority for one). *)
Module ConfigHandler.
Section Methods.

Variable urlparse : string -> outcome string.

Definition do_GET (self_path : string) : outcome Target.t :=
  match urlparse self_path with
  | Ret path => ConfigServerRouting.do_GET self_path path
  | Raise e => Raise e
  end.

Definition do_POST (self_path : string) (request_headers : list (string * string))
    (py_int : string -> option Z) (rfile : string) : outcome Target.t :=
  match urlparse self_path with
  | Ret path => ConfigServerRouting.do_POST path request_headers py_int rfile
  | Raise e => Raise e
  end.

End Methods.
End ConfigHandler.

(** A text without the character [c]. *)
Fixpoint free_of (c : ascii) (s : string) : bool :=
  match s with
  | EmptyString => true
  | String a s' => negb (Ascii.eqb a c) && free_of c s'
  end.


(** The handlers that [do_POST] alone is written to reach. *)
Definition posted (t : Target.t) : bool :=
  match t with
  | Target.handle_save_startup _ | Target.handle_service_control _
  | Target.handle_test_command _ | Target.handle_save_behaviors _
  | Target.handle_process_refresh | Target.handle_process_restart
  | Target.handle_process_stop | Target.handle_process_start
  | Target.handle_clear_startup | Target.handle_system_reboot
  | Target.handle_save_schedule _ | Target.handle_set_timezone _
  | Target.handle_save_network _ | Target.handle_delete_network _
  | Target.handle_connect_saved_network _ | Target.handle_set_display_power _
  | Target.handle_wifi_connect _ | Target.handle_stop_test _ => true
  | _ => false
  end.

End ConfigServerRouting.

(** ** scripts/config-server.py: validation of a configuration *)

Module ConfigValidation.
Import Py ConfigServer.

(** The Python classes of decoded JSON values. *)
Inductive py_type : Type :=
  | py_str | py_list | py_dict | py_int | py_bool | py_float | py_NoneType.

Definition py_type_eqb (a b : py_type) : bool :=
  match a, b with
  | py_str, py_str | py_list, py_list | py_dict, py_dict | py_int, py_int
  | py_bool, py_bool | py_float, py_float | py_NoneType, py_NoneType => true
  | _, _ => false
  end.

(** [type(v)] *)
Definition type_of (v : json) : py_type :=
  match v with
  | JNull => py_NoneType
  | JBool _ => py_bool
  | JInt _ => py_int
  | JFloat _ => py_float
  | JStr _ => py_str
  | JArr _ => py_list
  | JObj _ => py_dict
  end.

(** [ty.__name__] *)
Definition type_name (ty : py_type) : string :=
  match ty with
  | py_str => "str"
  | py_list => "list"
  | py_dict => "dict"
  | py_int => "int"
  | py_bool => "bool"
  | py_float => "float"
  | py_NoneType => "NoneType"
  end.

(** [isinstance(v, ty)]: [bool] is a subclass of [int]. *)
Definition isinstance (v : json) (ty : py_type) : bool :=
  py_type_eqb (type_of v) ty
  || (py_type_eqb ty py_int && py_type_eqb (type_of v) py_bool).

Definition CONFIG_SCHEMA : list (string * py_type) :=
  [("startup_command", py_str);
   ("saved_networks", py_list);
   ("behaviors", py_dict);
   ("schedule", py_dict);
   ("profiles", py_dict);
   ("active_profile", py_str);
   ("version", py_int)].

(** The errors of the first loop for one schema entry. *)
Definition type_errors (config : list (string * json)) (entry : string * py_type) : list string :=
  match members_get (fst entry) config with
  | Some v =>
      if negb (isinstance v (snd entry))
      then ["'" +:+ fst entry +:+ "' should be " +:+ type_name (snd entry) +:+
            ", got " +:+ type_name (type_of v)]
      else []
  | None => []
  end.

(** The errors for one element of [saved_networks]. *)
Definition network_errors (i : nat) (network : json) : list string :=
  match network with
  | JObj members =>
      match members_get "ssid" members with
      | None => ["saved_networks[" +:+ pretty i +:+ "] missing required 'ssid' field"]
      | Some _ => []
      end
  | _ => ["saved_networks[" +:+ pretty i +:+ "] should be a dict"]
  end.

(** [config] holds the members of the dict that is validated; of two
    members with one name the later one is the dict's. *)
Definition validate_config (config : list (string * json)) : bool * list string :=
  let errors := flat_map (type_errors config) CONFIG_SCHEMA in
  let errors :=
    errors ++
    match members_get "saved_networks" config with
    | Some (JArr networks) => concat (imap network_errors networks)
    | _ => []
    end in
  let errors :=
    errors ++
    match members_get "schedule" config with
    | Some (JObj schedule) =>
        match members_get "enabled" schedule with
        | Some v => if negb (isinstance v py_bool)
                    then ["schedule.enabled should be boolean"] else []
        | None => []
        end ++
        match members_get "rules" schedule with
        | Some v => if negb (isinstance v py_list)
                    then ["schedule.rules should be a list"] else []
        | None => []
        end
    | _ => []
    end in
  (Nat.eqb (length errors) 0, errors).

(** What the validator is written to accept. *)
Definition well_formed (config : list (string * json)) : Prop :=
  (forall key ty v,
      (key, ty) ∈ CONFIG_SCHEMA -> members_get key config = Some v ->
      type_of v = ty \/ (ty = py_int /\ type_of v = py_bool))
  /\ (forall networks,
        members_get "saved_networks" config = Some (JArr networks) ->
        forall network, network ∈ networks ->
          exists members ssid, network = JObj members /\ members_get "ssid" members = Some ssid)
  /\ (forall schedule,
        members_get "schedule" config = Some (JObj schedule) ->
        (forall v, members_get "enabled" schedule = Some v -> exists b, v = JBool b)
        /\ (forall v, members_get "rules" schedule = Some v -> exists rules, v = JArr rules)).

End ConfigValidation.

(** * Properties *)

(** ** Strings *)

Module PyFacts.
Import Py.

Lemma split_cons sep s : exists piece pieces, split sep s = piece :: pieces.
Proof.
  induction s as [|c s IH]; simpl; [by eexists _, _|].
  destruct (Ascii.eqb c sep); [by eexists _, _|].
  destruct IH as (piece & pieces & ->). by eexists _, _.
Qed.

Lemma lower_app s t : lower (s +:+ t) = lower s +:+ lower t.
Proof. induction s as [|c s IH]; simpl; [done|]. by rewrite IH. Qed.

Lemma lower_char_idemp c : lower_char (lower_char c) = lower_char c.
Proof. destruct c as [[] [] [] [] [] [] [] []]; reflexivity. Qed.

Lemma lower_idemp s : lower (lower s) = lower s.
Proof. induction s as [|c s IH]; simpl; [done|]. by rewrite lower_char_idemp, IH. Qed.

Lemma lstrip_blank s : blank s = true -> lstrip s = "".
Proof.
  induction s as [|c s IH]; simpl; [done|].
  intros [Hc Hs]%andb_prop. rewrite Hc. auto.
Qed.

Lemma strip_blank s : blank s = true -> strip s = "".
Proof. intros H. unfold strip. by rewrite lstrip_blank. Qed.

Lemma rstrip_length s : (String.length (rstrip s) <= String.length s)%nat.
Proof.
  induction s as [|c s IH]; simpl; [lia|].
  destruct (rstrip s) eqn:E; [destruct (isspace c)|]; simpl in *; lia.
Qed.

Lemma lstrip_length s : (String.length (lstrip s) <= String.length s)%nat.
Proof.
  induction s as [|c s IH]; simpl; [lia|].
  destruct (isspace c); simpl; lia.
Qed.

Lemma strip_len s : len (strip s) <= len s.
Proof.
  unfold len, strip.
  pose proof (rstrip_length (lstrip s)). pose proof (lstrip_length s). lia.
Qed.

End PyFacts.

(** ** The captive-portal proxy *)

Module CaptivePortalProxyFacts.
Import Py CaptivePortalProxy.

(** [path.split('?')[0]] is the text before the first question mark. *)
Lemma item0_split_query s : item0 (split "?" s) = strip_query s.
Proof.
  induction s as [|c s IH]; simpl; [done|].
  destruct (Ascii.eqb c "?"); [done|].
  destruct (split "?" s) as [|piece pieces]; simpl in *; by rewrite <- IH.
Qed.

Lemma detection_set_is_list x :
  x ∈ PORTAL_DETECTION_PATHS <-> x ∈ detection_path_list.
Proof.
  unfold PORTAL_DETECTION_PATHS, detection_path_list.
  rewrite !elem_of_union, !elem_of_singleton, !elem_of_cons, elem_of_nil. tauto.
Qed.

Lemma is_portal_detection_request_normalize path :
  is_portal_detection_request path = bool_decide (normalize path ∈ detection_path_list).
Proof.
  unfold is_portal_detection_request, normalize. rewrite item0_split_query.
  apply bool_decide_ext, detection_set_is_list.
Qed.

(** C1. The classifier answers Intercept exactly for the raw paths whose
    query-stripped, lowercased form is one of the thirteen detection paths,
    and Passthrough for every other path; it is a function of the path
    alone. *)
Theorem classify_exact rawPath :
  classify rawPath =
    (if bool_decide (normalize rawPath ∈ detection_path_list) then Intercept else Passthrough)
  /\ length detection_path_list = 13%nat
  /\ NoDup detection_path_list.
Proof.
  split; [|split].
  - unfold classify. by rewrite is_portal_detection_request_normalize.
  - reflexivity.
  - apply (bool_decide_unpack _). by vm_compute.
Qed.

Lemma strip_query_app_query p q : strip_query (strip_query p +:+ "?" +:+ q) = strip_query p.
Proof.
  induction p as [|c p IH]; simpl; [done|].
  destruct (Ascii.eqb c "?") eqn:E; simpl; [done|]. by rewrite E, IH.
Qed.

Lemma strip_query_lower p : strip_query (lower p) = lower (strip_query p).
Proof.
  induction p as [|c p IH]; simpl; [done|].
  assert (Ascii.eqb (lower_char c) "?" = Ascii.eqb c "?") as ->.
  { destruct c as [[] [] [] [] [] [] [] []]; reflexivity. }
  destruct (Ascii.eqb c "?"); simpl; [done|]. by rewrite IH.
Qed.

(** Letter case and an appended query string do not matter. *)
Lemma classify_case_query_insensitive p q :
  classify (strip_query p +:+ "?" +:+ q) = classify (lower p)
  /\ classify (lower p) = classify p.
Proof.
  unfold classify. rewrite !is_portal_detection_request_normalize. unfold normalize.
  rewrite strip_query_app_query, strip_query_lower, PyFacts.lower_idemp. done.
Qed.

Example classify_near_misses :
  classify "/hotspot-detect.htm" = Passthrough /\
  classify "/redirect/" = Passthrough /\
  classify "/generate_204/x" = Passthrough /\
  classify "/x/generate_204" = Passthrough /\
  classify "/Generate_204?probe=1" = Intercept.
Proof. by vm_compute. Qed.


(** *** Running a handler *)

Ltac run :=
  cbv [bind try_except try_pass ret raise modify get emit sock_write print
       send_response send_header end_headers wfile_write send_error
       call_urlopen record_call rfile client_writes calls with_calls].

Lemma for_each_send_headers (keep : string * string -> bool) hs st :
  for_each hs (fun hv => if keep hv then send_header hv.1 hv.2 else ret tt) st =
  (Ret tt,
   with_calls st (calls st ++ map (fun hv => SendHeader hv.1 hv.2) (List.filter keep hs))).
Proof.
  revert st. induction hs as [|hv hs IH]; intros st; simpl.
  - destruct st. unfold with_calls, ret. simpl. by rewrite app_nil_r.
  - unfold bind. destruct (keep hv); simpl.
    + unfold send_header, emit, modify. rewrite IH. unfold with_calls, record_call. simpl.
      by rewrite <- app_assoc.
    + unfold ret. by rewrite IH.
Qed.

Lemma served_app st st' cs : calls st' = calls st ++ cs -> served st st' = cs.
Proof. intros H. unfold served. by rewrite H, drop_app_length. Qed.


(** The interception answer, whatever the state of the client socket. *)
Lemma handle_portal_detection_intercept path st :
  is_portal_detection_request path = true ->
  exists line left,
    handle_portal_detection path st =
    (Ret true,
     {| rfile := rfile st; client_writes := left;
        calls := calls st ++ Print line :: redirect_calls |}).
Proof.
  intros H. unfold handle_portal_detection.
  unfold is_portal_detection_request in H. cbv zeta in H. rewrite H. cbn [negb].
  eexists _. run. cbn [negb].
  destruct st as [rf [[|n]|] cs]; cbn; eexists; rewrite <- !app_assoc; reflexivity.
Qed.

(** C2. A GET or HEAD request for an intercepted path is answered with
    exactly: status 302, Location: /, Cache-Control: no-cache, no-store,
    must-revalidate, Content-Length: 0, and no body; the handler makes the
    same calls for GET and for HEAD, and does not contact the backend. *)
Theorem intercept_response_exact path hdrs urlopen st :
  classify path = Intercept ->
  let get := do_GET path hdrs urlopen st in
  let head := do_HEAD path hdrs urlopen st in
  head = get
  /\ fst get = Ret tt
  /\ (exists line, served st (snd get) = Print line :: redirect_calls)
  /\ response_of (served st (snd get)) =
       Some {| status := 302;
               sent_headers :=
                 [ ("Location", "/");
                   ("Cache-Control", "no-cache, no-store, must-revalidate");
                   ("Content-Length", "0") ];
               sent_body := "" |}.
Proof.
  intros H. unfold classify in H.
  destruct (is_portal_detection_request path) eqn:E; [|done].
  cbv zeta. unfold do_GET, do_HEAD. rewrite E.
  destruct (handle_portal_detection_intercept path st E) as (line & left & Hrun).
  unfold bind. rewrite Hrun. unfold ret. cbn [fst snd].
  assert (served st {| rfile := rfile st; client_writes := left;
                       calls := calls st ++ Print line :: redirect_calls |}
          = Print line :: redirect_calls) as Hs by (by apply served_app).
  rewrite Hs. split; [done|]. split; [done|]. split; [by exists line|reflexivity].
Qed.

(** The theorem at the Android probe, with a query string and capitals. *)
Lemma intercept_response_exact_witness :
  classify "/Generate_204?x=1" = Intercept
  /\ response_of
       (served {| rfile := ""; client_writes := None; calls := [] |}
          (snd (do_GET "/Generate_204?x=1" [] (fun _ => Raise (URLError "refused"))
                  {| rfile := ""; client_writes := None; calls := [] |}))) =
     Some {| status := 302;
             sent_headers :=
               [ ("Location", "/");
                 ("Cache-Control", "no-cache, no-store, must-revalidate");
                 ("Content-Length", "0") ];
             sent_body := "" |}.
Proof.
  split; [by vm_compute|].
  apply (intercept_response_exact "/Generate_204?x=1" [] (fun _ => Raise (URLError "refused"))
           {| rfile := ""; client_writes := None; calls := [] |}).
  by vm_compute.
Defined.


(** *** The forwarder *)

Lemma appends_ret {A} (a : A) : appends (ret a).
Proof. intros st. exists []. simpl. by rewrite app_nil_r. Qed.

Lemma appends_raise {A} e : appends (@raise conn A e).
Proof. intros st. exists []. simpl. by rewrite app_nil_r. Qed.

Lemma appends_bind {A B} (m : M conn A) (k : A -> M conn B) :
  appends m -> (forall a, appends (k a)) -> appends (bind m k).
Proof.
  intros Hm Hk st. unfold bind. destruct (Hm st) as [cs Hcs].
  destruct (m st) as [[a|e] st']; simpl in *.
  - destruct (Hk a st') as [cs' Hcs']. exists (cs ++ cs').
    by rewrite Hcs', Hcs, app_assoc.
  - by exists cs.
Qed.

Lemma appends_try_except {A} (m : M conn A) (h : exn -> M conn A) :
  appends m -> (forall e, appends (h e)) -> appends (try_except m h).
Proof.
  intros Hm Hh st. unfold try_except. destruct (Hm st) as [cs Hcs].
  destruct (m st) as [[a|e] st']; simpl in *.
  - by exists cs.
  - destruct (Hh e st') as [cs' Hcs']. exists (cs ++ cs').
    by rewrite Hcs', Hcs, app_assoc.
Qed.

Lemma appends_emit c : appends (emit c).
Proof. intros st. by exists [c]. Qed.

Lemma appends_sock_write c : appends (sock_write c).
Proof. intros st. exists [c]. unfold sock_write. by destruct (client_writes st) as [[|n]|]. Qed.

Lemma appends_for_each {A} (l : list A) (body : A -> M conn unit) :
  (forall x, appends (body x)) -> appends (for_each l body).
Proof.
  intros Hb. induction l as [|x l IH]; simpl; [apply appends_ret|].
  apply appends_bind; auto.
Qed.

Lemma appends_call_urlopen urlopen req t : appends (call_urlopen urlopen req t).
Proof. intros st. by exists [Urlopen req t]. Qed.

Lemma appends_forward_headers (keep : string * string -> bool) hs :
  appends (for_each hs (fun hv => if keep hv then send_header hv.1 hv.2 else ret tt)).
Proof.
  apply appends_for_each. intros hv. destruct (keep hv); [apply appends_emit|apply appends_ret].
Qed.

(** Whatever the backend and the client do, the forwarder first logs the
    request and then sends it to the backend with the 30-second timeout. *)
Lemma proxy_request_contacts_backend path hdrs urlopen method body st :
  exists line rest,
    served st (snd (proxy_request path hdrs urlopen method body st)) =
    Print line :: Urlopen (build_request path hdrs method body) 30 :: rest.
Proof.
  unfold proxy_request. cbv zeta. eexists.
  set (handler := fun e : exn => _).
  set (after := fun response : Response => _).
  assert (Hafter : forall r, appends (after r)).
  { intros r. unfold after.
    repeat first [ apply appends_bind; [|intros ?] | apply appends_emit
                 | apply appends_sock_write | apply appends_forward_headers ]. }
  assert (Hhandler : forall e, appends (handler e)).
  { intros e. unfold handler. destruct e as [code hs fp| | | | | | | | | | |];
      repeat first [ apply appends_bind; [|intros ?] | apply appends_emit
                   | apply appends_sock_write | apply appends_forward_headers
                   | apply appends_ret ].
    destruct fp; [apply appends_sock_write|apply appends_ret]. }
  unfold bind at 1, print, emit, modify, try_except, bind at 1, call_urlopen.
  set (st2 := record_call (Urlopen _ _) _).
  assert (Hst2 : calls st2 =
                 calls st ++ [Print ("[PROXY] " +:+ method +:+ " " +:+ path +:+ " -> " +:+
                                "http://" +:+ WIFI_CONNECT_HOST +:+ ":" +:+
                                pretty WIFI_CONNECT_PORT +:+ path);
                              Urlopen (build_request path hdrs method body) 30]).
  { unfold st2, record_call. cbn [calls]. by rewrite <- app_assoc. }
  clearbody st2.
  destruct (urlopen _) as [response|e].
  - destruct (Hafter response st2) as [cs Hcs].
    destruct (after response st2) as [[[]|e] st'] eqn:E; cbn [fst snd] in Hcs |- *.
    + exists cs. apply served_app. rewrite Hcs, Hst2. by rewrite <- !app_assoc.
    + destruct (Hhandler e st') as [cs' Hcs']. exists (cs ++ cs').
      apply served_app. rewrite Hcs', Hcs, Hst2. by rewrite <- !app_assoc.
  - destruct (Hhandler e st2) as [cs Hcs].
    exists cs. apply served_app. rewrite Hcs, Hst2. by rewrite <- !app_assoc.
Qed.







(** A response of the backend is passed on: its status, its headers without
    [Connection], [Transfer-Encoding] and [Content-Encoding], then the body.
    A client that is gone ends the writing, silently. *)
Lemma proxy_request_success path hdrs urlopen verb body st response :
  urlopen (build_request path hdrs verb body) = Ret response ->
  let kept :=
    List.filter
      (fun hv => negb (in_list (lower hv.1)
                         ["connection"; "transfer-encoding"; "content-encoding"]))
      (resp_headers response) in
  exists line left tail,
    proxy_request path hdrs urlopen verb body st =
    (Ret tt,
     {| rfile := rfile st; client_writes := left;
        calls := calls st ++
                 Print line :: Urlopen (build_request path hdrs verb body) 30 ::
                 SendResponse (getcode response) ::
                 map (fun hv => SendHeader hv.1 hv.2) kept ++ EndHeaders :: tail |})
    /\ (tail = [] \/ tail = [WfileWrite (resp_read response)]).
Proof.
  intros Hurl. cbv zeta. unfold proxy_request. cbv zeta.
  unfold bind, try_except, print, send_response, emit, modify, call_urlopen.
  rewrite Hurl. rewrite for_each_send_headers.
  unfold end_headers, wfile_write, sock_write, with_calls, record_call.
  cbn [rfile client_writes calls].
  eexists.
  destruct (client_writes st) as [[|[|n]]|]; cbn [rfile client_writes calls];
    eexists _, _; (split; [unfold ret; f_equal; f_equal; rewrite <- !app_assoc; cbn [app];
                           try reflexivity |]); eauto.
Qed.

(** The status and headers of an HTTP error of the backend are passed on,
    here without [Connection] and [Transfer-Encoding] only. *)
Lemma proxy_request_http_error path hdrs urlopen verb body st code hs fp :
  urlopen (build_request path hdrs verb body) = Raise (HTTPError code hs fp) ->
  let kept :=
    List.filter
      (fun hv => negb (in_list (lower hv.1) ["connection"; "transfer-encoding"]))
      hs in
  exists line out left tail,
    proxy_request path hdrs urlopen verb body st =
    (out,
     {| rfile := rfile st; client_writes := left;
        calls := calls st ++
                 Print line :: Urlopen (build_request path hdrs verb body) 30 ::
                 SendResponse code ::
                 map (fun hv => SendHeader hv.1 hv.2) kept ++ EndHeaders :: tail |})
    /\ (client_writes st = Some 0%nat -> out = Raise BrokenPipeError).
Proof.
  intros Hurl. cbv zeta. unfold proxy_request. cbv zeta.
  unfold bind, try_except, print, send_response, emit, modify, call_urlopen.
  rewrite Hurl. rewrite for_each_send_headers.
  unfold end_headers, wfile_write, sock_write, with_calls, record_call.
  cbn [rfile client_writes calls].
  eexists.
  destruct (client_writes st) as [[|[|n]]|], fp as [content|];
    cbn [rfile client_writes calls];
    eexists _, _, _; (split; [unfold ret; f_equal; f_equal; rewrite <- !app_assoc; cbn [app];
                              try reflexivity |]); try done.
Qed.

(** A failure of the backend round trip is answered by class: unreachable
    gives 502, a timeout 504, any other fault 502; a broken pipe raised in
    the forwarding itself is dropped without an answer. *)
Lemma proxy_request_failure path hdrs urlopen verb body st e :
  urlopen (build_request path hdrs verb body) = Raise e ->
  (forall code hs fp, e <> HTTPError code hs fp) ->
  List.filter is_client_call (served st (snd (proxy_request path hdrs urlopen verb body st))) =
  match e with
  | URLError _ => [SendError 502 "WiFi Connect service unavailable"]
  | socket_timeout => [SendError 504 "Gateway timeout"]
  | BrokenPipeError => []
  | _ => [SendError 502 "Proxy error"]
  end.
Proof.
  intros Hurl Hne. unfold proxy_request. cbv zeta.
  unfold bind, try_except, print, emit, modify, call_urlopen.
  rewrite Hurl.
  unfold send_error, sock_write, record_call. cbn [rfile client_writes calls].
  destruct e; try (by edestruct Hne);
    destruct (client_writes st) as [[|n]|]; cbn [snd ret calls];
    (erewrite served_app; [|rewrite <- !app_assoc; cbn [app]; reflexivity]); reflexivity.
Qed.


(** C3. The forwarder answers an unreachable backend with 502, a timeout
    with 504 and any other fault with 502 ([proxy_request_failure]), and
    drops a broken pipe raised while the backend's response is written
    ([proxy_request_success]).  The broken pipe is not dropped on every
    path: when the backend answered with an error status and the client
    goes away after the headers, the write of the body raises inside the
    [except HTTPError] clause and the exception leaves [proxy_request]. *)
Theorem broken_pipe_escapes_error_forwarding :
  let st := {| rfile := ""; client_writes := Some 1%nat; calls := [] |} in
  let not_found := fun _ : Request =>
    Raise (HTTPError 404 [("Content-Type", "text/plain")] (Some "not found")) in
  let found := fun _ : Request =>
    Ret {| getcode := 200; resp_headers := [("Content-Type", "text/plain")];
           resp_read := "found" |} in
  fst (do_GET "/status" [] not_found st) = Raise BrokenPipeError
  /\ fst (do_GET "/status" [] found st) = Ret tt.
Proof. by vm_compute. Qed.

(** C8. The headers of a successful response are passed on without
    [Connection], [Transfer-Encoding] and [Content-Encoding]
    ([proxy_request_success]); on an error status of the backend
    [Content-Encoding] is passed on. *)
Theorem http_error_keeps_content_encoding :
  let st := {| rfile := ""; client_writes := None; calls := [] |} in
  let hs := [ ("Content-Type", "text/html"); ("Content-Encoding", "gzip");
              ("Transfer-Encoding", "chunked"); ("Connection", "close") ] in
  let not_found := fun _ : Request => Raise (HTTPError 404 hs (Some "gone")) in
  let found := fun _ : Request =>
    Ret {| getcode := 200; resp_headers := hs; resp_read := "here" |} in
  header_calls (served st (snd (do_GET "/status" [] not_found st))) =
    [ ("Content-Type", "text/html"); ("Content-Encoding", "gzip") ]
  /\ header_calls (served st (snd (do_GET "/status" [] found st))) =
    [ ("Content-Type", "text/html") ].
Proof. by vm_compute. Qed.

End CaptivePortalProxyFacts.

(** ** The test-process handlers *)

Module ConfigServerFacts.
Import Py ConfigServer.

Ltac run :=
  cbv [bind try_except try_pass ret raise modify get send_json_response print os_ask
       data_get command_strip named_temporary_file open_w close unlink
       set_registry set_files set_handles log_call];
  cbn [TEST_PROCESSES files open_handles trace sent].

Ltac fields := cbn [negb TEST_PROCESSES files open_handles trace sent].

Lemma truthy_str c : truthy (JStr c) = false <-> c = "".
Proof.
  simpl. destruct (String.eqb_spec c ""); simpl; split; congruence.
Qed.

(** An empty command and a command too long after trimming are refused
    before anything is allocated. *)
Lemma handle_test_command_refuses members c env w :
  default (JStr "") (members_get "command" members) = JStr c ->
  c = "" \/ 4096 < len (strip c) ->
  exists message,
    handle_test_command (Some (JObj members)) env w =
    (Ret tt, answered w 400 (JObj [("error", JStr message)])).
Proof.
  intros Hc Hbad. unfold handle_test_command, data_get.
  unfold bind at 1, try_except, ret at 1. unfold bind at 1, ret at 1. rewrite Hc.
  destruct (truthy (JStr c)) eqn:Et; cbn [negb].
  - destruct Hbad as [->|Hlong]; [done|].
    unfold bind at 1, command_strip, ret at 1.
    apply Z.ltb_lt in Hlong. rewrite Hlong. by eexists.
  - by eexists.
Qed.


(** A non-empty command whose trimmed text fits is started when fewer than
    five entries are registered and the operating system provides the file
    and the process. *)
Lemma handle_test_command_starts members c env w name h p :
  default (JStr "") (members_get "command" members) = JStr c ->
  c <> "" ->
  len (strip c) <= 4096 ->
  (size (TEST_PROCESSES w) < 5)%nat ->
  tmp_name env = Ret name -> opened env = Ret h -> started env = Ret p ->
  handle_test_command (Some (JObj members)) env w =
  (Ret tt, spawned w (strip c) name h p (now env)).
Proof.
  intros Hc Hne Hlen Hsize Htmp Hopen Hstart.
  unfold handle_test_command, data_get.
  unfold bind at 1, try_except, ret at 1. unfold bind at 1, ret at 1. rewrite Hc.
  destruct (truthy (JStr c)) eqn:Et; [|by apply truthy_str in Et]. cbn [negb].
  unfold bind at 1, command_strip, ret at 1.
  apply Z.ltb_ge in Hlen. rewrite Hlen.
  unfold bind at 1, get.
  assert ((5 <=? Z.of_nat (size (TEST_PROCESSES w))) = false) as -> by (apply Z.leb_gt; lia).
  run. rewrite Htmp, Hopen, Hstart. fields. unfold spawned.
  rewrite <- !app_assoc. reflexivity.
Qed.

(** With five entries registered a command that passed the input checks is
    refused with 429, and nothing is allocated. *)
Lemma handle_test_command_full members c env w :
  default (JStr "") (members_get "command" members) = JStr c ->
  c <> "" ->
  len (strip c) <= 4096 ->
  (5 <= size (TEST_PROCESSES w))%nat ->
  handle_test_command (Some (JObj members)) env w =
  (Ret tt, answered w 429 (JObj [("error", JStr "Too many test processes running")])).
Proof.
  intros Hc Hne Hlen Hsize.
  unfold handle_test_command, data_get.
  unfold bind at 1, try_except, ret at 1. unfold bind at 1, ret at 1. rewrite Hc.
  destruct (truthy (JStr c)) eqn:Et; [|by apply truthy_str in Et]. cbn [negb].
  unfold bind at 1, command_strip, ret at 1.
  apply Z.ltb_ge in Hlen. rewrite Hlen.
  unfold bind at 1, get.
  assert ((5 <=? Z.of_nat (size (TEST_PROCESSES w))) = true) as -> by (apply Z.leb_le; lia).
  reflexivity.
Qed.


(** An id that is not registered is answered with 404 and nothing else
    happens. *)
Lemma handle_test_output_not_found id env w :
  TEST_PROCESSES w !! id = None ->
  handle_test_output id env w =
  (Ret tt, answered w 404 (JObj [("error", JStr "Process not found")])).
Proof. intros H. unfold handle_test_output. run. rewrite H. by fields. Qed.

Lemma handle_stop_test_not_found id env w :
  TEST_PROCESSES w !! id = None ->
  handle_stop_test id env w =
  (Ret tt, answered w 404 (JObj [("error", JStr "Process not found")])).
Proof. intros H. unfold handle_stop_test. run. rewrite H. by fields. Qed.

(** Querying a registered command whose process has exited. *)
Lemma handle_test_output_exited id info env w rc :
  TEST_PROCESSES w !! id = Some info ->
  poll_result env = Some rc ->
  (output_file info ∈ files w -> exists out, read_output env = Ret out) ->
  exists out cs,
    handle_test_output id env w =
    (Ret tt,
     reaped w id info cs
       (JObj [("output", JStr out); ("running", JBool false); ("exit_code", JInt rc)])).
Proof.
  intros Hin Hpoll Hread. unfold handle_test_output, reaped. run. rewrite Hin, Hpoll.
  destruct (bool_decide (output_file info ∈ files w)) eqn:Ef.
  - apply bool_decide_eq_true in Ef. destruct (Hread Ef) as [out ->]. fields.
    rewrite bool_decide_true by done.
    exists out, [Read (output_file info); Poll (pid (process info))].
    by rewrite <- !app_assoc.
  - fields. rewrite Ef. apply bool_decide_eq_false in Ef.
    exists "", [Poll (pid (process info))].
    assert (files w ∖ {[output_file info]} = files w) as ->.
    { apply difference_disjoint_L. by apply disjoint_singleton_r. }
    by rewrite <- !app_assoc.
Qed.

(** Querying a registered command that is still running changes nothing
    but the trace. *)
Lemma handle_test_output_running id info env w out :
  TEST_PROCESSES w !! id = Some info ->
  poll_result env = None ->
  output_file info ∈ files w ->
  read_output env = Ret out ->
  handle_test_output id env w =
  (Ret tt,
   {| TEST_PROCESSES := TEST_PROCESSES w; files := files w;
      open_handles := open_handles w;
      trace := trace w ++ [Read (output_file info); Poll (pid (process info))];
      sent := sent w ++
              [(200, JObj [("output", JStr out); ("running", JBool true);
                           ("exit_code", JNull)])] |}).
Proof.
  intros Hin Hpoll Hf Hread. unfold handle_test_output. run.
  rewrite Hin, Hpoll. rewrite bool_decide_true by done. rewrite Hread. fields.
  by rewrite <- !app_assoc.
Qed.


(** *** What a request can do to the registry *)

Ltac branches :=
  repeat (fields;
          match goal with
          | |- context [match ?x with _ => _ end] =>
              lazymatch x with
              | context [match _ with _ => _ end] => fail
              | _ => destruct x eqn:?
              end
          end);
  fields.

Lemma handle_test_output_registry id env w :
  let reg := TEST_PROCESSES (snd (handle_test_output id env w)) in
  reg = TEST_PROCESSES w \/ reg = delete id (TEST_PROCESSES w).
Proof.
  cbv zeta. unfold handle_test_output. run. branches; cbn [snd]; fields; auto.
Qed.

Lemma handle_stop_test_registry id env w :
  let reg := TEST_PROCESSES (snd (handle_stop_test id env w)) in
  reg = TEST_PROCESSES w \/ reg = delete id (TEST_PROCESSES w).
Proof.
  cbv zeta. unfold handle_stop_test. run. branches; cbn [snd]; fields; auto.
Qed.

Lemma handle_test_command_registry post_data env w :
  let reg := TEST_PROCESSES (snd (handle_test_command post_data env w)) in
  reg = TEST_PROCESSES w
  \/ exists p info, started env = Ret p /\ reg = <[pretty p := info]> (TEST_PROCESSES w).
Proof.
  cbv zeta. unfold handle_test_command. run. branches; cbn [snd]; fields; eauto.
Qed.

(** An id that is not registered stays so, unless a new command is given
    that very process id. *)
Lemma serve_keeps_absent id r w :
  TEST_PROCESSES w !! id = None ->
  ~ starts_as id r ->
  TEST_PROCESSES (serve r w) !! id = None.
Proof.
  intros Habs Hfresh. destruct r as [post_data env|id' env|id' env]; cbn [serve].
  - destruct (handle_test_command_registry post_data env w) as [->|(p & info & Hp & ->)];
      [done|].
    rewrite lookup_insert_ne; [done|]. intros Heq. apply Hfresh. cbn. eauto.
  - destruct (handle_test_output_registry id' env w) as [->| ->]; [done|].
    destruct (decide (id' = id)) as [->|Hne];
      [apply lookup_delete_eq|by rewrite lookup_delete_ne].
  - destruct (handle_stop_test_registry id' env w) as [->| ->]; [done|].
    destruct (decide (id' = id)) as [->|Hne];
      [apply lookup_delete_eq|by rewrite lookup_delete_ne].
Qed.

Lemma serve_all_keeps_absent id rs w :
  TEST_PROCESSES w !! id = None ->
  Forall (fun r => ~ starts_as id r) rs ->
  TEST_PROCESSES (serve_all rs w) !! id = None.
Proof.
  intros Habs Hfresh. revert w Habs.
  induction Hfresh as [|r rs Hr _ IH]; intros w Habs; cbn; [done|].
  apply IH. by apply serve_keeps_absent.
Qed.


Lemma answers_app w w' l : sent w' = sent w ++ l -> answers w w' = l.
Proof. intros H. unfold answers. by rewrite H, drop_app_length. Qed.

(** C4, as amended.  Querying a registered command whose process has
    exited, and whose output file is absent or can be read as text, answers
    running=false with the exit code, closes the output handle, deletes the
    output file and removes the entry, all in the one request; from then on
    a query or a stop for that id is answered with 404, whatever requests
    come in between, as long as the operating system does not give the same
    process id to a later command. *)
Theorem poll_reaps_exited id info env w rc :
  TEST_PROCESSES w !! id = Some info ->
  poll_result env = Some rc ->
  (output_file info ∈ files w -> exists out, read_output env = Ret out) ->
  let w' := snd (handle_test_output id env w) in
  (exists out,
     answers w w' =
     [(200, JObj [("output", JStr out); ("running", JBool false); ("exit_code", JInt rc)])])
  /\ (output_handle info ∉ open_handles w')
  /\ (output_file info ∉ files w')
  /\ TEST_PROCESSES w' = delete id (TEST_PROCESSES w)
  /\ forall rs,
       Forall (fun r => ~ starts_as id r) rs ->
       let w'' := serve_all rs w' in
       TEST_PROCESSES w'' !! id = None
       /\ (forall env',
             handle_test_output id env' w'' =
             (Ret tt, answered w'' 404 (JObj [("error", JStr "Process not found")])))
       /\ (forall env',
             handle_stop_test id env' w'' =
             (Ret tt, answered w'' 404 (JObj [("error", JStr "Process not found")]))).
Proof.
  intros Hin Hpoll Hread. cbv zeta.
  destruct (handle_test_output_exited id info env w rc Hin Hpoll Hread) as (out & cs & ->).
  cbn [snd]. unfold reaped at 1 2 3 4. fields.
  split; [exists out; by apply answers_app|].
  split; [intros [_ H]%elem_of_difference; apply H; by apply elem_of_singleton|].
  split; [intros [_ H]%elem_of_difference; apply H; by apply elem_of_singleton|].
  split; [done|].
  intros rs Hrs.
  assert (Habs : TEST_PROCESSES (serve_all rs (reaped w id info cs
            (JObj [("output", JStr out); ("running", JBool false); ("exit_code", JInt rc)])))
                 !! id = None).
  { apply serve_all_keeps_absent; [|done]. unfold reaped. fields. apply lookup_delete_eq. }
  split; [done|]. split; intros env'.
  - by apply handle_test_output_not_found.
  - by apply handle_stop_test_not_found.
Qed.


(** The theorem at a registry with one finished command. *)
Lemma poll_reaps_exited_witness :
  let info := {| process := {| pid := 4242 |}; output_file := "/tmp/tmpk3.log";
                 output_handle := 7%nat; start_time := 1700000000; command := "ls" |} in
  let w := {| TEST_PROCESSES := {["4242" := info]}; files := {["/tmp/tmpk3.log"]};
              open_handles := {[7%nat]}; trace := []; sent := [] |} in
  let env := {| read_output := Ret "a.txt"; poll_result := Some 0 |} in
  TEST_PROCESSES w !! "4242" = Some info
  /\ TEST_PROCESSES (snd (handle_test_output "4242" env w)) = delete "4242" (TEST_PROCESSES w).
Proof.
  cbv zeta. split; [by vm_compute|].
  apply (poll_reaps_exited "4242"
           {| process := {| pid := 4242 |}; output_file := "/tmp/tmpk3.log";
              output_handle := 7%nat; start_time := 1700000000; command := "ls" |}
           {| read_output := Ret "a.txt"; poll_result := Some 0 |}
           {| TEST_PROCESSES :=
                {["4242" := {| process := {| pid := 4242 |}; output_file := "/tmp/tmpk3.log";
                               output_handle := 7%nat; start_time := 1700000000;
                               command := "ls" |}]};
              files := {["/tmp/tmpk3.log"]}; open_handles := {[7%nat]};
              trace := []; sent := [] |} 0).
  - by vm_compute.
  - reflexivity.
  - intros _. by exists "a.txt".
Defined.

(** C4, as stated, fails in two ways.  The output is read before the
    process is polled: when the output of an exited command cannot be
    decoded, every query is answered 500 and the entry stays registered with
    its file and its handle.  And the id is the process id: after an entry
    was reaped, a later command that is given the same process id answers
    under the old id. *)
Lemma exited_entry_can_stay_or_return :
  let info := {| process := {| pid := 4242 |}; output_file := "/tmp/tmpk3.log";
                 output_handle := 7%nat; start_time := 1700000000; command := "ls" |} in
  let w := {| TEST_PROCESSES := {["4242" := info]}; files := {["/tmp/tmpk3.log"]};
              open_handles := {[7%nat]}; trace := []; sent := [] |} in
  let undecodable :=
    {| read_output := Raise (ValueError "'utf-8' codec can't decode byte 0xff in position 0");
       poll_result := Some 0 |} in
  let w1 := snd (handle_test_output "4242" undecodable w) in
  let w2 := snd (handle_test_output "4242" undecodable w1) in
  let readable := {| read_output := Ret "a.txt"; poll_result := Some 0 |} in
  let again := {| tmp_name := Ret "/tmp/tmpq1.log"; opened := Ret 5%nat;
                  started := Ret 4242; now := 1700000100 |} in
  let w3 := snd (handle_test_output "4242" readable w) in
  let w4 := snd (handle_test_command (Some (JObj [("command", JStr "sleep 60")])) again w3) in
  let w5 := snd (handle_test_output "4242" {| read_output := Ret ""; poll_result := None |} w4) in
  (sent w2 =
     [(500, JObj [("error", JStr "'utf-8' codec can't decode byte 0xff in position 0")]);
      (500, JObj [("error", JStr "'utf-8' codec can't decode byte 0xff in position 0")])]
   /\ TEST_PROCESSES w2 !! "4242" = Some info
   /\ "/tmp/tmpk3.log" ∈ files w2
   /\ 7%nat ∈ open_handles w2)
  /\ (TEST_PROCESSES w3 !! "4242" = None
      /\ answers w4 w5 =
         [(200, JObj [("output", JStr ""); ("running", JBool true); ("exit_code", JNull)])]).
Proof.
  cbv zeta. split; [split; [by vm_compute|split; [by vm_compute|split]]|split; by vm_compute].
  - apply (bool_decide_unpack _). by vm_compute.
  - apply (bool_decide_unpack _). by vm_compute.
Qed.

(** C5, as amended.  An empty command, and a command whose text is longer
    than 4096 characters once the surrounding whitespace is trimmed, is
    refused with 400 before anything is allocated: no call to the operating
    system is made, no file is created, and the registry is unchanged. *)
Theorem spawn_refuses_empty_or_long members c env w :
  default (JStr "") (members_get "command" members) = JStr c ->
  c = "" \/ 4096 < len (strip c) ->
  let w' := snd (handle_test_command (Some (JObj members)) env w) in
  (exists message, answers w w' = [(400, JObj [("error", JStr message)])])
  /\ TEST_PROCESSES w' = TEST_PROCESSES w
  /\ files w' = files w
  /\ open_handles w' = open_handles w
  /\ trace w' = trace w.
Proof.
  intros Hc Hbad. cbv zeta.
  destruct (handle_test_command_refuses members c env w Hc Hbad) as [message ->].
  cbn [snd]. unfold answered. fields. split; [|done].
  exists message. by apply answers_app.
Qed.

Lemma spawn_refuses_empty_or_long_witness :
  let w := {| TEST_PROCESSES := ∅; files := ∅; open_handles := ∅; trace := []; sent := [] |} in
  let env := {| tmp_name := Ret "/tmp/tmpq1.log"; opened := Ret 5%nat;
                started := Ret 4242; now := 1700000000 |} in
  trace (snd (handle_test_command (Some (JObj [("command", JStr "")])) env w)) = trace w.
Proof.
  cbv zeta.
  apply (spawn_refuses_empty_or_long [("command", JStr "")] ""
           {| tmp_name := Ret "/tmp/tmpq1.log"; opened := Ret 5%nat;
              started := Ret 4242; now := 1700000000 |}
           {| TEST_PROCESSES := ∅; files := ∅; open_handles := ∅; trace := []; sent := [] |}).
  - reflexivity.
  - by left.
Defined.

(** C5, as stated, fails: a submitted text longer than 4096 characters is
    started when its trimmed text is short. *)
Lemma long_padded_command_is_started :
  let w := {| TEST_PROCESSES := ∅; files := ∅; open_handles := ∅; trace := []; sent := [] |} in
  let env := {| tmp_name := Ret "/tmp/tmpq1.log"; opened := Ret 5%nat;
                started := Ret 4242; now := 1700000000 |} in
  let w' := snd (handle_test_command (Some (JObj [("command", JStr padded_ls)])) env w) in
  4096 < len padded_ls
  /\ sent w' = [(200, JObj [("pid", JInt 4242); ("message", JStr "Test started")])]
  /\ trace w' = [ Print "[TEST] Running command: ls"; NamedTemporaryFile ".log";
                  OpenW "/tmp/tmpq1.log"; PopenShell "ls" 5 "/tmp" ]
  /\ size (TEST_PROCESSES w') = 1%nat.
Proof. by vm_compute. Qed.


(** C6. With five commands registered a further command is refused with
    429 and nothing is allocated; after one of the five has exited and was
    reaped by a query, the same command is started: it is answered with its
    process id and entered in the registry. *)
Theorem capacity_limit_and_release members c env0 id info penv rc env name h p w :
  size (TEST_PROCESSES w) = 5%nat ->
  default (JStr "") (members_get "command" members) = JStr c ->
  c <> "" ->
  len (strip c) <= 4096 ->
  TEST_PROCESSES w !! id = Some info ->
  poll_result penv = Some rc ->
  (output_file info ∈ files w -> exists out, read_output penv = Ret out) ->
  tmp_name env = Ret name -> opened env = Ret h -> started env = Ret p ->
  let w1 := snd (handle_test_command (Some (JObj members)) env0 w) in
  let w2 := snd (handle_test_output id penv w1) in
  let w3 := snd (handle_test_command (Some (JObj members)) env w2) in
  w1 = answered w 429 (JObj [("error", JStr "Too many test processes running")])
  /\ TEST_PROCESSES w2 = delete id (TEST_PROCESSES w)
  /\ size (TEST_PROCESSES w2) = 4%nat
  /\ answers w2 w3 = [(200, JObj [("pid", JInt p); ("message", JStr "Test started")])]
  /\ TEST_PROCESSES w3 !! pretty p =
       Some {| process := {| pid := p |}; output_file := name; output_handle := h;
               start_time := now env; command := slice_to 100 (strip c) |}
  /\ last (trace w3) = Some (PopenShell (test_cmd (strip c)) h "/tmp").
Proof.
  intros Hsize Hc Hne Hlen Hin Hpoll Hread Htmp Hopen Hstart. cbv zeta.
  rewrite (handle_test_command_full members c env0 w) by (done || lia). cbn [snd].
  split; [done|].
  destruct (handle_test_output_exited id info penv
              (answered w 429 (JObj [("error", JStr "Too many test processes running")])) rc)
    as (out & cs & ->); [done|done|done|].
  cbn [snd]. set (w2 := reaped _ _ _ _ _).
  assert (Hreg : TEST_PROCESSES w2 = delete id (TEST_PROCESSES w)) by done.
  assert (Hsz : size (TEST_PROCESSES w2) = 4%nat).
  { rewrite Hreg, map_size_delete_Some by eauto. lia. }
  rewrite (handle_test_command_starts members c env w2 name h p) by (done || lia).
  cbn [snd]. unfold spawned. fields.
  split; [done|]. split; [done|]. split; [by apply answers_app|].
  split; [apply lookup_insert_eq|].
  by rewrite last_app.
Qed.

Lemma capacity_limit_and_release_witness :
  let entry (n : Z) (f : string) (h : nat) :=
    {| process := {| pid := n |}; output_file := f; output_handle := h;
       start_time := 1700000000; command := "sleep 60" |} in
  let w := {| TEST_PROCESSES :=
                {[ "101" := entry 101 "/tmp/a.log" 3%nat; "102" := entry 102 "/tmp/b.log" 4%nat;
                   "103" := entry 103 "/tmp/c.log" 5%nat; "104" := entry 104 "/tmp/d.log" 6%nat;
                   "105" := entry 105 "/tmp/e.log" 7%nat ]};
              files := {[ "/tmp/a.log"; "/tmp/b.log"; "/tmp/c.log"; "/tmp/d.log"; "/tmp/e.log" ]};
              open_handles := {[ 3%nat; 4%nat; 5%nat; 6%nat; 7%nat ]};
              trace := []; sent := [] |} in
  let env := {| tmp_name := Ret "/tmp/f.log"; opened := Ret 3%nat;
                started := Ret 106; now := 1700000100 |} in
  let penv := {| read_output := Ret ""; poll_result := Some 0 |} in
  let post := Some (JObj [("command", JStr "  firefox http://localhost  ")]) in
  size (TEST_PROCESSES w) = 5%nat
  /\ size (TEST_PROCESSES (snd (handle_test_output "103" penv
                                  (snd (handle_test_command post env w))))) = 4%nat.
Proof.
  cbv zeta. split; [by vm_compute|].
  refine (proj1 (proj2 (proj2
    (capacity_limit_and_release
       [("command", JStr "  firefox http://localhost  ")] "  firefox http://localhost  "
       {| tmp_name := Ret "/tmp/f.log"; opened := Ret 3%nat;
          started := Ret 106; now := 1700000100 |}
       "103"
       {| process := {| pid := 103 |}; output_file := "/tmp/c.log"; output_handle := 5%nat;
          start_time := 1700000000; command := "sleep 60" |}
       {| read_output := Ret ""; poll_result := Some 0 |} 0
       {| tmp_name := Ret "/tmp/f.log"; opened := Ret 3%nat;
          started := Ret 106; now := 1700000100 |}
       "/tmp/f.log" 3%nat 106 _ _ _ _ _ _ _ _ _ _ _)))).
  - by vm_compute.
  - reflexivity.
  - done.
  - by vm_compute.
  - by vm_compute.
  - reflexivity.
  - intros _. by exists "".
  - reflexivity.
  - reflexivity.
  - reflexivity.
Defined.


(** Stopping a registered command: when the group signals go through, the
    handler sends SIGTERM to the process group, waits one second, and sends
    SIGKILL to the group if the process is still alive; then it closes the
    output handle, deletes the output file, removes the entry and answers
    success. *)
Lemma handle_stop_test_graceful id info env w g g' :
  TEST_PROCESSES w !! id = Some info ->
  getpgid_term env = Ret g -> killpg_term env = Ret tt ->
  getpgid_kill env = Ret g' -> killpg_kill env = Ret tt ->
  let p := pid (process info) in
  handle_stop_test id env w =
  (Ret tt,
   reaped w id info
     ([Getpgid p; Killpg g SIGTERM; Sleep 1; Poll p] ++
      match poll_after_term env with
      | None => [Getpgid p; Killpg g' SIGKILL]
      | Some _ => []
      end)
     (JObj [("success", JBool true)])).
Proof.
  intros Hin Hg Hk Hg' Hk'. cbv zeta. unfold handle_stop_test, reaped. run.
  rewrite Hin, Hg, Hk. fields.
  destruct (poll_after_term env) as [rc|]; fields; rewrite ?Hg', ?Hk'; fields;
    destruct (bool_decide (output_file info ∈ files w)) eqn:Ef; fields;
    rewrite <- ?app_assoc; cbn [app]; try reflexivity;
    apply bool_decide_eq_false in Ef;
    (assert (files w ∖ {[output_file info]} = files w) as ->
       by (apply difference_disjoint_L; by apply disjoint_singleton_r));
    reflexivity.
Qed.

(** The same holds when a group signal fails, as long as the fallback on
    the process itself does not fail in turn. *)
Lemma handle_stop_test_fallback id info env w :
  TEST_PROCESSES w !! id = Some info ->
  terminate env = Ret tt -> kill env = Ret tt ->
  let r := handle_stop_test id env w in
  fst r = Ret tt
  /\ TEST_PROCESSES (snd r) = delete id (TEST_PROCESSES w)
  /\ files (snd r) = files w ∖ {[output_file info]}
  /\ open_handles (snd r) = open_handles w ∖ {[output_handle info]}
  /\ sent (snd r) = sent w ++ [(200, JObj [("success", JBool true)])].
Proof.
  intros Hin Ht Hk. cbv zeta. unfold handle_stop_test. run.
  rewrite Hin, Ht, Hk. fields.
  assert (Hfiles : bool_decide (output_file info ∈ files w) = false ->
                   files w = files w ∖ {[output_file info]}).
  { intros Hf%bool_decide_eq_false. symmetry.
    apply difference_disjoint_L. by apply disjoint_singleton_r. }
  branches; cbn [fst snd]; fields; auto 10.
Qed.

(** C7. The best effort has a gap: when the group signal and then the
    signal to the process itself both fail (a command that runs with other
    privileges), the exception of the fallback leaves the handler's inner
    block, the request is answered with 500, and the entry, the open handle
    and the output file all stay. *)
Theorem stop_fails_when_fallback_fails :
  let info := {| process := {| pid := 4242 |}; output_file := "/tmp/tmpk3.log";
                 output_handle := 7%nat; start_time := 1700000000;
                 command := "sudo fbi image.png" |} in
  let w := {| TEST_PROCESSES := {["4242" := info]}; files := {["/tmp/tmpk3.log"]};
              open_handles := {[7%nat]}; trace := []; sent := [] |} in
  let denied := PermissionError "[Errno 1] Operation not permitted" in
  let env := {| getpgid_term := Ret 4242; killpg_term := Raise denied;
                poll_after_term := None; getpgid_kill := Ret 4242;
                killpg_kill := Raise denied; terminate := Raise denied;
                poll_after_terminate := None; kill := Raise denied |} in
  let w' := snd (handle_stop_test "4242" env w) in
  sent w' = [(500, JObj [("error", JStr "[Errno 1] Operation not permitted")])]
  /\ TEST_PROCESSES w' !! "4242" = Some info
  /\ elements (open_handles w') = [7%nat]
  /\ elements (files w') = ["/tmp/tmpk3.log"]
  /\ trace w' = [Getpgid 4242; Killpg 4242 SIGTERM; Terminate 4242].
Proof. by vm_compute. Qed.


Lemma test_cmd_empty : test_cmd "" = "".
Proof. reflexivity. Qed.

(** C10. The emptiness check is made on the submitted text before it is
    trimmed and the length limit on the trimmed text: a non-empty text is
    refused as too long exactly when its trimmed text exceeds 4096
    characters, and otherwise the trimmed text is what is handed to the
    shell (after the display variables for a GUI command) and what is
    recorded, cut to 100 characters, in the registry.  A text of whitespace
    only is therefore not refused: it starts a shell on the empty command
    and registers it. *)
Theorem whitespace_only_command_is_started members c env w name h p :
  default (JStr "") (members_get "command" members) = JStr c ->
  c <> "" ->
  (size (TEST_PROCESSES w) < 5)%nat ->
  tmp_name env = Ret name -> opened env = Ret h -> started env = Ret p ->
  let r := handle_test_command (Some (JObj members)) env w in
  (4096 < len (strip c) ->
     r = (Ret tt, answered w 400 (JObj [("error", JStr "Command too long (max 4096 chars)")])))
  /\ (len (strip c) <= 4096 ->
        r = (Ret tt, spawned w (strip c) name h p (now env))
        /\ last (trace (snd r)) = Some (PopenShell (test_cmd (strip c)) h "/tmp")
        /\ command <$> (TEST_PROCESSES (snd r) !! pretty p) = Some (slice_to 100 (strip c)))
  /\ (blank c = true ->
        r = (Ret tt, spawned w "" name h p (now env))
        /\ last (trace (snd r)) = Some (PopenShell "" h "/tmp")
        /\ command <$> (TEST_PROCESSES (snd r) !! pretty p) = Some ""
        /\ answers w (snd r) = [(200, JObj [("pid", JInt p); ("message", JStr "Test started")])]).
Proof.
  intros Hc Hne Hsize Htmp Hopen Hstart. cbv zeta.
  assert (Hstarts : len (strip c) <= 4096 ->
            handle_test_command (Some (JObj members)) env w =
            (Ret tt, spawned w (strip c) name h p (now env))).
  { intros Hlen. by apply handle_test_command_starts. }
  assert (Hshape : forall t,
            last (trace (spawned w t name h p (now env))) = Some (PopenShell (test_cmd t) h "/tmp")
            /\ command <$> (TEST_PROCESSES (spawned w t name h p (now env)) !! pretty p)
               = Some (slice_to 100 t)).
  { intros t. unfold spawned. fields. split; [by rewrite last_app|].
    by rewrite lookup_insert_eq. }
  split; [|split].
  - intros Hlong. unfold handle_test_command, data_get.
    unfold bind at 1, try_except, ret at 1. unfold bind at 1, ret at 1. rewrite Hc.
    destruct (truthy (JStr c)) eqn:Et; [|by apply truthy_str in Et]. cbn [negb].
    unfold bind at 1, command_strip, ret at 1.
    apply Z.ltb_lt in Hlong. by rewrite Hlong.
  - intros Hlen. rewrite (Hstarts Hlen). cbn [snd]. split; [done|]. apply Hshape.
  - intros Hblank. pose proof (PyFacts.strip_blank c Hblank) as Hstrip.
    assert (Hlen : len (strip c) <= 4096) by (rewrite Hstrip; by vm_compute).
    rewrite (Hstarts Hlen), Hstrip. cbn [snd]. split; [done|].
    destruct (Hshape "") as [Hl Hr]. rewrite test_cmd_empty in Hl.
    split; [done|]. split; [done|].
    apply answers_app. reflexivity.
Qed.

(** The theorem at a command of three blanks. *)
Lemma whitespace_only_command_is_started_witness :
  let w := {| TEST_PROCESSES := ∅; files := ∅; open_handles := ∅; trace := []; sent := [] |} in
  let env := {| tmp_name := Ret "/tmp/tmpq1.log"; opened := Ret 5%nat;
                started := Ret 4242; now := 1700000000 |} in
  blank "   " = true
  /\ handle_test_command (Some (JObj [("command", JStr "   ")])) env w =
     (Ret tt, spawned w "" "/tmp/tmpq1.log" 5 4242 1700000000).
Proof.
  cbv zeta. split; [reflexivity|].
  refine (proj1 (proj2 (proj2
    (whitespace_only_command_is_started [("command", JStr "   ")] "   "
       {| tmp_name := Ret "/tmp/tmpq1.log"; opened := Ret 5%nat;
          started := Ret 4242; now := 1700000000 |}
       {| TEST_PROCESSES := ∅; files := ∅; open_handles := ∅; trace := []; sent := [] |}
       "/tmp/tmpq1.log" 5%nat 4242 _ _ _ _ _ _)) _)).
  - reflexivity.
  - done.
  - vm_compute. lia.
  - reflexivity.
  - reflexivity.
  - reflexivity.
  - reflexivity.
Defined.

End ConfigServerFacts.

(** ** More on the forwarder *)

Module CaptivePortalProxyMore.
Import Py CaptivePortalProxy CaptivePortalProxyFacts.

Lemma append_empty_r s : s +:+ "" = s.
Proof.
  induction s as [|c s IH]; [done|].
  change (String c (s +:+ "") = String c s). by rewrite IH.
Qed.

Lemma copy_headers_appends (drop : list string) hs req :
  req_headers
    (fold_left
       (fun r hv => if negb (in_list (lower hv.1) drop) then add_header hv.1 hv.2 r else r)
       hs req) =
  req_headers req ++ List.filter (fun hv => negb (in_list (lower hv.1) drop)) hs.
Proof.
  revert req. induction hs as [|[k v] hs IH]; intros req; simpl; [symmetry; apply app_nil_r|].
  rewrite IH. destruct (negb _); [|done].
  unfold add_header. cbn [req_headers]. by rewrite <- app_assoc.
Qed.

(** X1. While it builds the request for the backend, [proxy_request]
    calls [add_header] once for each header of the client, in their order
    and with the name and value as received, except for the headers named
    Host, Connection or Content-Length in any letter case; it then calls
    [add_header] once more, for a Host header with the backend address, and
    makes no further [add_header] call.  (What [urllib] makes of these
    calls when it sends the request is not stated.) *)
Theorem build_request_headers path hdrs verb body :
  req_headers (build_request path hdrs verb body) =
  List.filter
    (fun hv => negb (in_list (lower hv.1) ["host"; "connection"; "content-length"])) hdrs
  ++ [("Host", "localhost:8080")].
Proof.
  unfold build_request. cbv zeta.
  assert (Hport : pretty WIFI_CONNECT_PORT = "8080") by (by vm_compute).
  destruct (body_truthy body); cbn [set_data add_header req_headers];
    rewrite copy_headers_appends; cbn [req_headers app]; by rewrite Hport.
Qed.

Lemma client_calls_headers (l : headers) :
  List.filter is_client_call (map (fun hv => SendHeader hv.1 hv.2) l) =
  map (fun hv => SendHeader hv.1 hv.2) l.
Proof. induction l as [|hv l IH]; simpl; [done|]. by rewrite IH. Qed.

Lemma header_block_headers (l : headers) rest :
  header_block (map (fun hv => SendHeader hv.1 hv.2) l ++ EndHeaders :: rest) =
  (l, EndHeaders :: rest).
Proof.
  induction l as [|[k v] l IH]; simpl; [done|]. by rewrite IH.
Qed.

(** The client's view of a run that made the calls of one forwarded answer. *)
Lemma response_of_forwarded line req t code (l : headers) tail :
  response_of (Print line :: Urlopen req t :: SendResponse code ::
               map (fun hv => SendHeader hv.1 hv.2) l ++ EndHeaders :: tail) =
  (fun b => {| status := code; sent_headers := l; sent_body := b |})
    <$> written (List.filter is_client_call tail).
Proof.
  unfold response_of. cbn [List.filter is_client_call].
  rewrite List.filter_app, client_calls_headers. cbn [List.filter is_client_call].
  by rewrite header_block_headers.
Qed.

(** X2. When [urlopen] has returned a response, its body was read in full
    and the client stays connected, the response is passed on as it is: the
    same status, the headers in their order without Connection,
    Transfer-Encoding and Content-Encoding, and the body unchanged; the
    handler returns normally. *)
Theorem forward_success path hdrs urlopen verb body st response :
  urlopen (build_request path hdrs verb body) = Ret response ->
  client_writes st = None ->
  let r := proxy_request path hdrs urlopen verb body st in
  fst r = Ret tt
  /\ response_of (served st (snd r)) =
     Some {| status := getcode response;
             sent_headers :=
               List.filter
                 (fun hv => negb (in_list (lower hv.1)
                                    ["connection"; "transfer-encoding"; "content-encoding"]))
                 (resp_headers response);
             sent_body := resp_read response |}.
Proof.
  intros Hurl Hclient. cbv zeta. split.
  - destruct (proxy_request_success path hdrs urlopen verb body st response Hurl)
      as (line & left & tail & -> & _). done.
  - unfold proxy_request. cbv zeta.
    unfold bind, try_except, print, send_response, emit, modify, call_urlopen.
    rewrite Hurl. rewrite for_each_send_headers.
    unfold end_headers, wfile_write, sock_write, with_calls, record_call.
    cbn [rfile client_writes calls]. rewrite Hclient. cbn [snd rfile client_writes calls].
    erewrite served_app; [|rewrite <- !app_assoc; cbn [app]; reflexivity].
    rewrite response_of_forwarded. cbn. by rewrite append_empty_r.
Qed.


Lemma forward_success_witness :
  let st := {| rfile := ""; client_writes := None; calls := [] |} in
  let answer := {| getcode := 200;
                   resp_headers := [("Content-Type", "text/html"); ("Connection", "close");
                                    ("content-encoding", "gzip"); ("X-Frame", "deny")];
                   resp_read := "<html></html>" |} in
  response_of (served st (snd (proxy_request "/index.html" [("Accept", "*/*")]
                                 (fun _ => Ret answer) "GET" None st))) =
  Some {| status := 200;
          sent_headers := [("Content-Type", "text/html"); ("X-Frame", "deny")];
          sent_body := "<html></html>" |}.
Proof.
  cbv zeta. etransitivity.
  - refine (proj2 (forward_success "/index.html" [("Accept", "*/*")]
                     (fun _ => Ret {| getcode := 200;
                                      resp_headers := [("Content-Type", "text/html");
                                                       ("Connection", "close");
                                                       ("content-encoding", "gzip");
                                                       ("X-Frame", "deny")];
                                      resp_read := "<html></html>" |})
                     "GET" None {| rfile := ""; client_writes := None; calls := [] |}
                     {| getcode := 200;
                        resp_headers := [("Content-Type", "text/html");
                                         ("Connection", "close");
                                         ("content-encoding", "gzip");
                                         ("X-Frame", "deny")];
                        resp_read := "<html></html>" |} _ _)); reflexivity.
  - by vm_compute.
Defined.

(** X3. When the round trip to the backend fails with anything but an HTTP
    error status, the client is sent one error answer and nothing else: 502
    when the backend cannot be reached, 504 on a timeout, 502 on any other
    fault; a broken pipe is dropped without an answer.  With the client
    still connected the handler returns normally. *)
Theorem backend_failure_answer path hdrs urlopen verb body st e :
  urlopen (build_request path hdrs verb body) = Raise e ->
  (forall code hs fp, e <> HTTPError code hs fp) ->
  let r := proxy_request path hdrs urlopen verb body st in
  List.filter is_client_call (served st (snd r)) =
    match e with
    | URLError _ => [SendError 502 "WiFi Connect service unavailable"]
    | socket_timeout => [SendError 504 "Gateway timeout"]
    | BrokenPipeError => []
    | _ => [SendError 502 "Proxy error"]
    end
  /\ (client_writes st = None -> fst r = Ret tt).
Proof.
  intros Hurl Hne. cbv zeta. split; [by apply proxy_request_failure|].
  intros Hclient. unfold proxy_request. cbv zeta.
  unfold bind, try_except, print, emit, modify, call_urlopen.
  rewrite Hurl.
  unfold send_error, sock_write, record_call. cbn [rfile client_writes calls].
  rewrite Hclient.
  destruct e; try (by edestruct Hne); reflexivity.
Qed.

Lemma backend_failure_answer_witness :
  let st := {| rfile := ""; client_writes := None; calls := [] |} in
  List.filter is_client_call
    (served st (snd (proxy_request "/" [] (fun _ => Raise socket_timeout) "GET" None st))) =
  [SendError 504 "Gateway timeout"].
Proof.
  cbv zeta.
  refine (proj1 (backend_failure_answer "/" [] (fun _ => Raise socket_timeout) "GET" None
                   {| rfile := ""; client_writes := None; calls := [] |} socket_timeout _ _)).
  - reflexivity.
  - intros code hs fp. discriminate.
Defined.

(** X4. An HTTP error status of the backend is passed on to a connected
    client with the same status code, the headers in their order without
    Connection and Transfer-Encoding, and the error body as the backend sent
    it (no body when the error has none); the handler returns normally. *)
Theorem forward_http_error path hdrs urlopen verb body st code hs fp :
  urlopen (build_request path hdrs verb body) = Raise (HTTPError code hs fp) ->
  client_writes st = None ->
  let r := proxy_request path hdrs urlopen verb body st in
  fst r = Ret tt
  /\ response_of (served st (snd r)) =
     Some {| status := code;
             sent_headers :=
               List.filter
                 (fun hv => negb (in_list (lower hv.1) ["connection"; "transfer-encoding"]))
                 hs;
             sent_body := default "" fp |}
  /\ (forall c m, SendError c m ∉ served st (snd r)).
Proof.
  intros Hurl Hclient. cbv zeta. unfold proxy_request. cbv zeta.
  unfold bind, try_except, print, send_response, emit, modify, call_urlopen.
  rewrite Hurl. rewrite for_each_send_headers.
  unfold end_headers, wfile_write, sock_write, with_calls, record_call.
  cbn [rfile client_writes calls]. rewrite Hclient.
  destruct fp as [content|]; cbn [fst snd rfile client_writes calls ret default];
    (split; [reflexivity|]);
    (erewrite served_app; [|rewrite <- !app_assoc; cbn [app]; reflexivity]);
    (split; [rewrite response_of_forwarded; cbn; by rewrite ?append_empty_r|]);
    intros c m Hin;
    repeat (apply elem_of_cons in Hin as [Hin|Hin]; [discriminate|]);
    apply elem_of_app in Hin as [Hin|Hin];
    try (apply list_elem_of_fmap in Hin as (hv & Heq & _); discriminate);
    repeat (apply elem_of_cons in Hin as [Hin|Hin]; [discriminate|]);
    by apply elem_of_nil in Hin.
Qed.

Lemma forward_http_error_witness :
  let st := {| rfile := ""; client_writes := None; calls := [] |} in
  let gone := HTTPError 404 [("Content-Type", "text/plain"); ("Connection", "close")]
                (Some "no such page") in
  response_of (served st (snd (proxy_request "/nothing" [] (fun _ => Raise gone)
                                 "GET" None st))) =
  Some {| status := 404; sent_headers := [("Content-Type", "text/plain")];
          sent_body := "no such page" |}.
Proof.
  cbv zeta. etransitivity.
  - refine (proj1 (proj2 (forward_http_error "/nothing" []
              (fun _ => Raise (HTTPError 404 [("Content-Type", "text/plain");
                                              ("Connection", "close")] (Some "no such page")))
              "GET" None {| rfile := ""; client_writes := None; calls := [] |}
              404 [("Content-Type", "text/plain"); ("Connection", "close")]
              (Some "no such page") _ _))); reflexivity.
  - by vm_compute.
Defined.

(** X5. A GET or HEAD request reaches the backend exactly when its path is
    not a detection path: an intercepted request is never forwarded, and
    every other request is. *)
Theorem backend_reached_iff_passthrough path hdrs urlopen st :
  ((exists req t, Urlopen req t ∈ served st (snd (do_GET path hdrs urlopen st)))
     <-> classify path = Passthrough)
  /\ ((exists req t, Urlopen req t ∈ served st (snd (do_HEAD path hdrs urlopen st)))
     <-> classify path = Passthrough).
Proof.
  unfold classify, do_GET, do_HEAD.
  destruct (is_portal_detection_request path) eqn:E.
  - destruct (handle_portal_detection_intercept path st E) as (line & left & Hrun).
    unfold bind. rewrite Hrun. unfold ret. cbn [snd].
    erewrite served_app; [|reflexivity].
    assert (Hnone : forall req t, ~ In (Urlopen req t) (Print line :: redirect_calls)).
    { intros req t Hin. unfold redirect_calls in Hin. cbn [In] in Hin.
      repeat (destruct Hin as [Hin|Hin]; [discriminate Hin|]). exact Hin. }
    split.
    + split.
      * intros (req & t & Hin).
        apply list_elem_of_In in Hin.
        apply Hnone in Hin.
        destruct Hin.
      * intros H.
        discriminate H.
    + split.
      * intros (req & t & Hin). apply list_elem_of_In in Hin. apply Hnone in Hin. destruct Hin.
      * intros H. discriminate H.
  - split; (split; [done|]); intros _.
    + destruct (proxy_request_contacts_backend path hdrs urlopen "GET" None st)
        as (line & rest & ->).
      eexists _, _. apply elem_of_cons. right. apply elem_of_cons. by left.
    + destruct (proxy_request_contacts_backend path hdrs urlopen "HEAD" None st)
        as (line & rest & ->).
      eexists _, _. apply elem_of_cons. right. apply elem_of_cons. by left.
Qed.

End CaptivePortalProxyMore.

(** ** More on the test-process handlers *)

Module ConfigServerMore.
Import Py ConfigServer ConfigServerInvariants ConfigServerFacts.

(** X6. A query or a stop for an id that is not registered is answered
    with 404 and touches nothing: no call to the operating system, no file,
    no handle, no entry. *)
Theorem unknown_id_is_not_found id penv senv w :
  TEST_PROCESSES w !! id = None ->
  handle_test_output id penv w =
    (Ret tt, answered w 404 (JObj [("error", JStr "Process not found")]))
  /\ handle_stop_test id senv w =
    (Ret tt, answered w 404 (JObj [("error", JStr "Process not found")])).
Proof.
  intros H. split.
  - by apply handle_test_output_not_found.
  - by apply handle_stop_test_not_found.
Qed.

Lemma unknown_id_is_not_found_witness :
  let w := {| TEST_PROCESSES := ∅; files := ∅; open_handles := ∅; trace := []; sent := [] |} in
  handle_test_output "77" {| read_output := Ret ""; poll_result := None |} w =
  (Ret tt, answered w 404 (JObj [("error", JStr "Process not found")])).
Proof.
  cbv zeta.
  refine (proj1 (unknown_id_is_not_found "77" {| read_output := Ret ""; poll_result := None |}
                   {| getpgid_term := Ret 77; killpg_term := Ret tt; poll_after_term := None;
                      getpgid_kill := Ret 77; killpg_kill := Ret tt; terminate := Ret tt;
                      poll_after_terminate := None; kill := Ret tt |}
                   {| TEST_PROCESSES := ∅; files := ∅; open_handles := ∅;
                      trace := []; sent := [] |} _)).
  reflexivity.
Defined.

(** X7. A query for a registered command that is still running changes
    nothing: the entry, the files and the open handles stay as they are.
    It is answered 200 with running=true, no exit code and the output read
    so far (the empty text when the output file does not exist), or 500
    with the text of the exception when reading the output file raises. *)
Theorem poll_running_is_read_only id info env w :
  TEST_PROCESSES w !! id = Some info ->
  poll_result env = None ->
  let w' := snd (handle_test_output id env w) in
  let so_far out :=
    (200, JObj [("output", JStr out); ("running", JBool true); ("exit_code", JNull)]) in
  TEST_PROCESSES w' = TEST_PROCESSES w
  /\ files w' = files w
  /\ open_handles w' = open_handles w
  /\ answers w w' =
     [ if bool_decide (output_file info ∈ files w)
       then match read_output env with
            | Ret out => so_far out
            | Raise e => (500, JObj [("error", JStr (exn_str e))])
            end
       else so_far "" ].
Proof.
  intros Hin Hpoll. cbv zeta. unfold handle_test_output. run. rewrite Hin. fields.
  destruct (bool_decide (output_file info ∈ files w)); fields;
    [destruct (read_output env) as [out|e]; fields|];
    rewrite ?Hpoll; cbn [fst snd negb]; fields;
    (split; [done|]); (split; [done|]); (split; [done|]); by apply answers_app.
Qed.

Lemma poll_running_is_read_only_witness :
  let info := {| process := {| pid := 4242 |}; output_file := "/tmp/tmpk3.log";
                 output_handle := 7%nat; start_time := 1700000000; command := "sleep 60" |} in
  let w := {| TEST_PROCESSES := {["4242" := info]}; files := {["/tmp/tmpk3.log"]};
              open_handles := {[7%nat]}; trace := []; sent := [] |} in
  let env := {| read_output := Raise (ValueError "'utf-8' codec can't decode byte 0xff");
                poll_result := None |} in
  TEST_PROCESSES (snd (handle_test_output "4242" env w)) = TEST_PROCESSES w
  /\ answers w (snd (handle_test_output "4242" env w)) =
     [(500, JObj [("error", JStr "'utf-8' codec can't decode byte 0xff")])].
Proof.
  cbv zeta.
  pose proof (poll_running_is_read_only "4242"
            {| process := {| pid := 4242 |}; output_file := "/tmp/tmpk3.log";
               output_handle := 7%nat; start_time := 1700000000; command := "sleep 60" |}
            {| read_output := Raise (ValueError "'utf-8' codec can't decode byte 0xff");
               poll_result := None |}
            {| TEST_PROCESSES :=
                 {["4242" := {| process := {| pid := 4242 |};
                                output_file := "/tmp/tmpk3.log"; output_handle := 7%nat;
                                start_time := 1700000000; command := "sleep 60" |}]};
               files := {["/tmp/tmpk3.log"]}; open_handles := {[7%nat]};
               trace := []; sent := [] |}) as H.
  cbv zeta in H.
  destruct H as (Hreg & _ & _ & Hans); [by vm_compute | reflexivity |].
  split; [exact Hreg|]. etransitivity; [exact Hans|]. by vm_compute.
Defined.

(** Every request is answered exactly once and no exception leaves a
    handler, whatever was posted and whatever the operating system does. *)
Lemma handle_test_command_answers post_data env w :
  let r := handle_test_command post_data env w in
  fst r = Ret tt /\ exists a, sent (snd r) = sent w ++ [a].
Proof.
  cbv zeta. unfold handle_test_command. run. branches; cbn [fst snd]; fields; eauto.
Qed.

Lemma handle_test_output_answers id env w :
  let r := handle_test_output id env w in
  fst r = Ret tt /\ exists a, sent (snd r) = sent w ++ [a].
Proof.
  cbv zeta. unfold handle_test_output. run. branches; cbn [fst snd]; fields; eauto.
Qed.

Lemma handle_stop_test_answers id env w :
  let r := handle_stop_test id env w in
  fst r = Ret tt /\ exists a, sent (snd r) = sent w ++ [a].
Proof.
  cbv zeta. unfold handle_stop_test. run. branches; cbn [fst snd]; fields; eauto.
Qed.

(** X8. Each of the three handlers sends exactly one answer per request
    and returns normally, for every posted document, every id and every
    behaviour of the operating system: a failure inside a handler becomes
    an error answer, never an exception and never silence. *)
Theorem every_request_is_answered_once post_data senv id penv kenv w :
  (fst (handle_test_command post_data senv w) = Ret tt
   /\ length (answers w (snd (handle_test_command post_data senv w))) = 1%nat)
  /\ (fst (handle_test_output id penv w) = Ret tt
      /\ length (answers w (snd (handle_test_output id penv w))) = 1%nat)
  /\ (fst (handle_stop_test id kenv w) = Ret tt
      /\ length (answers w (snd (handle_stop_test id kenv w))) = 1%nat).
Proof.
  split; [|split].
  - destruct (handle_test_command_answers post_data senv w) as [H [a Ha]].
    split; [done|]. by rewrite (answers_app _ _ _ Ha).
  - destruct (handle_test_output_answers id penv w) as [H [a Ha]].
    split; [done|]. by rewrite (answers_app _ _ _ Ha).
  - destruct (handle_stop_test_answers id kenv w) as [H [a Ha]].
    split; [done|]. by rewrite (answers_app _ _ _ Ha).
Qed.


(** A command is entered in the registry only when fewer than five are
    registered. *)
Lemma handle_test_command_registry_bounded post_data env w :
  let reg := TEST_PROCESSES (snd (handle_test_command post_data env w)) in
  reg = TEST_PROCESSES w
  \/ ((size (TEST_PROCESSES w) < 5)%nat
      /\ exists p f h c,
           started env = Ret p
           /\ reg = <[pretty p := {| process := {| pid := p |}; output_file := f;
                                     output_handle := h; start_time := now env;
                                     command := c |}]> (TEST_PROCESSES w)).
Proof.
  cbv zeta. unfold handle_test_command. run.
  branches; cbn [snd]; fields;
    first [ by left
          | right; split;
            [ match goal with H : (5 <=? _) = false |- _ => apply Z.leb_gt in H; lia end
            | eauto 10 ] ].
Qed.

Lemma serve_size r w :
  (size (TEST_PROCESSES w) <= 5)%nat -> (size (TEST_PROCESSES (serve r w)) <= 5)%nat.
Proof.
  intros Hsize. destruct r as [post_data env|id env|id env]; cbn [serve].
  - destruct (handle_test_command_registry_bounded post_data env w)
      as [->|(Hlt & p & f & h & c & _ & ->)]; [done|].
    rewrite map_size_insert. destruct (TEST_PROCESSES w !! pretty p); simpl; lia.
  - destruct (handle_test_output_registry id env w) as [->| ->]; [done|].
    rewrite map_size_delete. destruct (TEST_PROCESSES w !! id); simpl; lia.
  - destruct (handle_stop_test_registry id env w) as [->| ->]; [done|].
    rewrite map_size_delete. destruct (TEST_PROCESSES w !! id); simpl; lia.
Qed.

(** X9. The registry never holds more than five commands: from a registry
    of at most five entries, no sequence of submit, query and stop requests,
    under any behaviour of the operating system, leads to a sixth. *)
Theorem registry_never_exceeds_five rs w :
  (size (TEST_PROCESSES w) <= 5)%nat ->
  (size (TEST_PROCESSES (serve_all rs w)) <= 5)%nat.
Proof.
  revert w. induction rs as [|r rs IH]; intros w Hsize; cbn; [done|].
  apply IH. by apply serve_size.
Qed.

Lemma registry_never_exceeds_five_witness :
  let w := {| TEST_PROCESSES := ∅; files := ∅; open_handles := ∅; trace := []; sent := [] |} in
  let env (p : Z) := {| tmp_name := Ret "/tmp/t.log"; opened := Ret 3%nat;
                        started := Ret p; now := 0 |} in
  let post := Some (JObj [("command", JStr "sleep 60")]) in
  let rs := [ TestCommand post (env 11); TestCommand post (env 12);
              TestCommand post (env 13); TestCommand post (env 14);
              TestCommand post (env 15); TestCommand post (env 16) ] in
  (size (TEST_PROCESSES (serve_all rs w)) <= 5)%nat.
Proof.
  cbv zeta. apply registry_never_exceeds_five. vm_compute. lia.
Defined.

Lemma serve_keyed r w :
  keyed_by_pid (TEST_PROCESSES w) -> keyed_by_pid (TEST_PROCESSES (serve r w)).
Proof.
  intros Hk id info. destruct r as [post_data env|id' env|id' env]; cbn [serve].
  - destruct (handle_test_command_registry_bounded post_data env w)
      as [->|(Hlt & p & f & h & c & _ & ->)]; [apply Hk|].
    destruct (decide (pretty p = id)) as [<-|Hne].
    + rewrite lookup_insert_eq. by intros [= <-].
    + rewrite lookup_insert_ne by done. apply Hk.
  - destruct (handle_test_output_registry id' env w) as [->| ->]; [apply Hk|].
    intros [_ H]%lookup_delete_Some. by apply Hk.
  - destruct (handle_stop_test_registry id' env w) as [->| ->]; [apply Hk|].
    intros [_ H]%lookup_delete_Some. by apply Hk.
Qed.

(** X10. Every entry of the registry is filed under the decimal text of
    its own process id, and stays so through every sequence of requests: an
    id looked up in the registry always names the process that is
    signalled. *)
Theorem registry_keys_are_pids rs w :
  keyed_by_pid (TEST_PROCESSES w) ->
  keyed_by_pid (TEST_PROCESSES (serve_all rs w)).
Proof.
  revert w. induction rs as [|r rs IH]; intros w Hk; cbn; [done|].
  apply IH. by apply serve_keyed.
Qed.

Lemma registry_keys_are_pids_witness :
  let w := {| TEST_PROCESSES := ∅; files := ∅; open_handles := ∅; trace := []; sent := [] |} in
  let env := {| tmp_name := Ret "/tmp/t.log"; opened := Ret 3%nat;
                started := Ret 4242; now := 0 |} in
  keyed_by_pid
    (TEST_PROCESSES (serve_all [TestCommand (Some (JObj [("command", JStr "ls")])) env] w)).
Proof.
  cbv zeta. apply registry_keys_are_pids. intros id info H. vm_compute in H. discriminate H.
Defined.

(** X11. When the operating system cannot start the process, the request
    is answered with 500 and the registry stays as it was, but the output
    file that was already created is left behind.  (The file object that
    was opened on it is a local of the handler; what becomes of it is not
    stated.) *)
Theorem failed_start_leaves_the_file members c env w name h e :
  default (JStr "") (members_get "command" members) = JStr c ->
  c <> "" ->
  len (strip c) <= 4096 ->
  (size (TEST_PROCESSES w) < 5)%nat ->
  tmp_name env = Ret name -> opened env = Ret h -> started env = Raise e ->
  e <> JSONDecodeError ->
  let w' := snd (handle_test_command (Some (JObj members)) env w) in
  answers w w' = [(500, JObj [("error", JStr (exn_str e))])]
  /\ TEST_PROCESSES w' = TEST_PROCESSES w
  /\ name ∈ files w'.
Proof.
  intros Hc Hne Hlen Hsize Htmp Hopen Hstart Hexn. cbv zeta.
  assert (Hrun : exists cs,
            handle_test_command (Some (JObj members)) env w =
            (Ret tt,
             {| TEST_PROCESSES := TEST_PROCESSES w;
                files := {[name]} ∪ ({[name]} ∪ files w);
                open_handles := {[h]} ∪ open_handles w;
                trace := cs;
                sent := sent w ++ [(500, JObj [("error", JStr (exn_str e))])] |})).
  { unfold handle_test_command, data_get.
    unfold bind at 1, try_except, ret at 1. unfold bind at 1, ret at 1. rewrite Hc.
    destruct (truthy (JStr c)) eqn:Et; [|by apply truthy_str in Et]. cbn [negb].
    unfold bind at 1, command_strip, ret at 1.
    apply Z.ltb_ge in Hlen. rewrite Hlen.
    unfold bind at 1, get.
    assert ((5 <=? Z.of_nat (size (TEST_PROCESSES w))) = false) as ->
      by (apply Z.leb_gt; lia).
    run. rewrite Htmp, Hopen, Hstart. fields.
    destruct e; try done; eexists; reflexivity. }
  destruct Hrun as [cs ->]. cbn [snd]. fields.
  split; [by apply answers_app|]. split; [done|].
  apply elem_of_union; left; by apply elem_of_singleton.
Qed.


Lemma failed_start_leaves_the_file_witness :
  let w := {| TEST_PROCESSES := ∅; files := ∅; open_handles := ∅; trace := []; sent := [] |} in
  let env := {| tmp_name := Ret "/tmp/tmpq1.log"; opened := Ret 5%nat;
                started := Raise (OSError "[Errno 12] Cannot allocate memory");
                now := 1700000000 |} in
  "/tmp/tmpq1.log" ∈ files (snd (handle_test_command
                                   (Some (JObj [("command", JStr "ls")])) env w)).
Proof.
  cbv zeta.
  refine (proj2 (proj2 (failed_start_leaves_the_file [("command", JStr "ls")] "ls"
            {| tmp_name := Ret "/tmp/tmpq1.log"; opened := Ret 5%nat;
               started := Raise (OSError "[Errno 12] Cannot allocate memory");
               now := 1700000000 |}
            {| TEST_PROCESSES := ∅; files := ∅; open_handles := ∅; trace := []; sent := [] |}
            "/tmp/tmpq1.log" 5%nat (OSError "[Errno 12] Cannot allocate memory")
            _ _ _ _ _ _ _ _))).
  - reflexivity.
  - discriminate.
  - vm_compute. discriminate.
  - vm_compute. lia.
  - reflexivity.
  - reflexivity.
  - reflexivity.
  - discriminate.
Defined.

(** X12. When the signals to the process group go through, a stop sends
    SIGTERM to the group, waits one second, and sends SIGKILL to the group
    only if the process is still alive then; in both cases it closes the
    handle, deletes the output file, removes the entry and answers
    success. *)
Theorem stop_is_graceful_then_forceful id info env w g g' :
  TEST_PROCESSES w !! id = Some info ->
  getpgid_term env = Ret g -> killpg_term env = Ret tt ->
  getpgid_kill env = Ret g' -> killpg_kill env = Ret tt ->
  let p := pid (process info) in
  let w' := snd (handle_stop_test id env w) in
  trace w' =
    trace w ++
    [Getpgid p; Killpg g SIGTERM; Sleep 1; Poll p] ++
    match poll_after_term env with
    | None => [Getpgid p; Killpg g' SIGKILL]
    | Some _ => []
    end ++
    [Close (output_handle info); Unlink (output_file info)]
  /\ answers w w' = [(200, JObj [("success", JBool true)])]
  /\ TEST_PROCESSES w' = delete id (TEST_PROCESSES w)
  /\ (output_handle info ∉ open_handles w')
  /\ (output_file info ∉ files w').
Proof.
  intros Hin Hg Hk Hg' Hk'. cbv zeta.
  rewrite (handle_stop_test_graceful id info env w g g' Hin Hg Hk Hg' Hk').
  cbn [snd]. unfold reaped. fields.
  split; [by rewrite <- !app_assoc|]. split; [by apply answers_app|]. split; [done|].
  split; intros [_ H]%elem_of_difference; apply H; by apply elem_of_singleton.
Qed.

Lemma stop_is_graceful_then_forceful_witness :
  let info := {| process := {| pid := 4242 |}; output_file := "/tmp/tmpk3.log";
                 output_handle := 7%nat; start_time := 1700000000; command := "sleep 60" |} in
  let w := {| TEST_PROCESSES := {["4242" := info]}; files := {["/tmp/tmpk3.log"]};
              open_handles := {[7%nat]}; trace := []; sent := [] |} in
  let env := {| getpgid_term := Ret 4242; killpg_term := Ret tt; poll_after_term := Some (-15);
                getpgid_kill := Ret 4242; killpg_kill := Ret tt; terminate := Ret tt;
                poll_after_terminate := None; kill := Ret tt |} in
  answers w (snd (handle_stop_test "4242" env w)) = [(200, JObj [("success", JBool true)])].
Proof.
  cbv zeta.
  refine (proj1 (proj2 (stop_is_graceful_then_forceful "4242"
            {| process := {| pid := 4242 |}; output_file := "/tmp/tmpk3.log";
               output_handle := 7%nat; start_time := 1700000000; command := "sleep 60" |}
            {| getpgid_term := Ret 4242; killpg_term := Ret tt; poll_after_term := Some (-15);
               getpgid_kill := Ret 4242; killpg_kill := Ret tt; terminate := Ret tt;
               poll_after_terminate := None; kill := Ret tt |}
            {| TEST_PROCESSES :=
                 {["4242" := {| process := {| pid := 4242 |};
                                output_file := "/tmp/tmpk3.log"; output_handle := 7%nat;
                                start_time := 1700000000; command := "sleep 60" |}]};
               files := {["/tmp/tmpk3.log"]}; open_handles := {[7%nat]};
               trace := []; sent := [] |} 4242 4242 _ _ _ _ _))).
  - vm_compute. reflexivity.
  - reflexivity.
  - reflexivity.
  - reflexivity.
  - reflexivity.
Defined.

(** X13. A stop releases the sink, removes the entry and answers success
    even when signals to the process group fail, provided the fallback
    signals to the process itself do not raise. *)
Theorem stop_survives_group_signal_failure id info env w :
  TEST_PROCESSES w !! id = Some info ->
  terminate env = Ret tt -> kill env = Ret tt ->
  let r := handle_stop_test id env w in
  fst r = Ret tt
  /\ TEST_PROCESSES (snd r) = delete id (TEST_PROCESSES w)
  /\ files (snd r) = files w ∖ {[output_file info]}
  /\ open_handles (snd r) = open_handles w ∖ {[output_handle info]}
  /\ answers w (snd r) = [(200, JObj [("success", JBool true)])].
Proof.
  intros Hin Ht Hk. cbv zeta.
  destruct (handle_stop_test_fallback id info env w Hin Ht Hk) as (H1 & H2 & H3 & H4 & H5).
  repeat (split; [done|]). by apply answers_app.
Qed.

Lemma stop_survives_group_signal_failure_witness :
  let info := {| process := {| pid := 4242 |}; output_file := "/tmp/tmpk3.log";
                 output_handle := 7%nat; start_time := 1700000000; command := "sleep 60" |} in
  let w := {| TEST_PROCESSES := {["4242" := info]}; files := {["/tmp/tmpk3.log"]};
              open_handles := {[7%nat]}; trace := []; sent := [] |} in
  let env := {| getpgid_term := Raise (ProcessLookupError "[Errno 3] No such process");
                killpg_term := Ret tt; poll_after_term := None;
                getpgid_kill := Ret 4242; killpg_kill := Ret tt; terminate := Ret tt;
                poll_after_terminate := Some 0; kill := Ret tt |} in
  fst (handle_stop_test "4242" env w) = Ret tt.
Proof.
  cbv zeta.
  refine (proj1 (stop_survives_group_signal_failure "4242"
            {| process := {| pid := 4242 |}; output_file := "/tmp/tmpk3.log";
               output_handle := 7%nat; start_time := 1700000000; command := "sleep 60" |}
            {| getpgid_term := Raise (ProcessLookupError "[Errno 3] No such process");
               killpg_term := Ret tt; poll_after_term := None;
               getpgid_kill := Ret 4242; killpg_kill := Ret tt; terminate := Ret tt;
               poll_after_terminate := Some 0; kill := Ret tt |}
            {| TEST_PROCESSES :=
                 {["4242" := {| process := {| pid := 4242 |};
                                output_file := "/tmp/tmpk3.log"; output_handle := 7%nat;
                                start_time := 1700000000; command := "sleep 60" |}]};
               files := {["/tmp/tmpk3.log"]}; open_handles := {[7%nat]};
               trace := []; sent := [] |} _ _ _)).
  - vm_compute. reflexivity.
  - reflexivity.
  - reflexivity.
Defined.

End ConfigServerMore.

(** ** Waiting for the backend *)

Module ProxyStartupFacts.
Import Py ProxyStartup.

Lemma probes_made_app cs cs' : probes_made (cs ++ cs') = (probes_made cs + probes_made cs')%nat.
Proof. unfold probes_made. by rewrite List.filter_app, length_app. Qed.

Lemma waits_app cs cs' : waits (cs ++ cs') = waits cs ++ waits cs'.
Proof. unfold waits. apply omap_app. Qed.

(** The loop, from any state: it stops at the first probe that succeeds. *)
Lemma attempts_run connect_ex remaining attempt max_attempts delay s :
  0 <= delay ->
  exists cs,
    steps (snd (attempts connect_ex remaining attempt max_attempts delay s)) = steps s ++ cs
    /\ match first_success connect_ex (probes s) remaining with
       | Some i =>
           fst (attempts connect_ex remaining attempt max_attempts delay s) = Ret true
           /\ probes_made cs = S i
           /\ waits cs = repeat delay i
       | None =>
           fst (attempts connect_ex remaining attempt max_attempts delay s) = Ret false
           /\ probes_made cs = remaining
           /\ waits cs = repeat delay remaining
       end.
Proof.
  intros Hdelay. revert attempt s.
  induction remaining as [|remaining IH]; intros attempt s.
  - exists [Print "WARNING: WiFi Connect not available, but starting proxy anyway"].
    cbn. done.
  - cbn [first_success].
    destruct (connect_ex (probes s) =? 0) eqn:E.
    + assert (Hrun : attempts connect_ex (S remaining) attempt max_attempts delay s =
                     (Ret true,
                      {| probes := S (probes s);
                         steps := steps s ++
                           [ConnectEx CaptivePortalProxy.WIFI_CONNECT_HOST
                              CaptivePortalProxy.WIFI_CONNECT_PORT 1;
                            Print ("WiFi Connect is available on port " +:+
                                   pretty CaptivePortalProxy.WIFI_CONNECT_PORT)] |})).
      { cbn [attempts]. unfold bind at 1, check_wifi_connect_available.
        cbv beta zeta iota. rewrite E.
        unfold bind, print, modify, ret, log_step. cbn [fst snd steps probes].
        by rewrite <- app_assoc. }
      rewrite Hrun. cbn [fst snd steps]. eexists. split; [reflexivity|].
      repeat split; reflexivity.
    + set (s2 := {| probes := S (probes s);
                    steps := steps s ++
                      [ConnectEx CaptivePortalProxy.WIFI_CONNECT_HOST
                         CaptivePortalProxy.WIFI_CONNECT_PORT 1;
                       Print ("  Attempt " +:+ pretty (attempt + 1) +:+ "/" +:+
                              pretty max_attempts +:+ ": WiFi Connect not ready...");
                       Sleep delay] |}).
      assert (Hrun : attempts connect_ex (S remaining) attempt max_attempts delay s =
                     attempts connect_ex remaining (attempt + 1) max_attempts delay s2).
      { cbn [attempts]. unfold bind at 1, check_wifi_connect_available.
        cbv beta zeta iota. rewrite E.
        unfold bind at 1, print, modify. unfold bind at 1, sleep.
        assert ((delay <? 0) = false) as -> by (apply Z.ltb_ge; lia).
        unfold modify, log_step. cbn [fst snd steps probes].
        unfold s2. by rewrite <- !app_assoc. }
      rewrite Hrun.
      destruct (IH (attempt + 1) s2) as (cs & Hsteps & Hres).
      cbn [probes s2] in Hres. change (probes s2) with (S (probes s)) in Hres.
      exists ([ConnectEx CaptivePortalProxy.WIFI_CONNECT_HOST
                 CaptivePortalProxy.WIFI_CONNECT_PORT 1;
               Print ("  Attempt " +:+ pretty (attempt + 1) +:+ "/" +:+ pretty max_attempts +:+
                      ": WiFi Connect not ready...");
               Sleep delay] ++ cs).
      split.
      * rewrite Hsteps. unfold s2. cbn [steps]. by rewrite <- !app_assoc.
      * destruct (first_success connect_ex (S (probes s)) remaining) as [i|];
          cbn [fmap option_fmap option_map];
          destruct Hres as (Hfst & Hprobes & Hwaits);
          rewrite probes_made_app, waits_app, Hprobes, Hwaits; done.
Qed.

(** The whole wait: the announcement, then the loop from a fresh state. *)
Lemma wait_for_wifi_connect_run connect_ex max_attempts delay :
  0 <= delay ->
  let r := wait_for_wifi_connect connect_ex max_attempts delay {| probes := 0; steps := [] |} in
  exists cs,
    probes_made (steps (snd r)) = probes_made cs
    /\ waits (steps (snd r)) = waits cs
    /\ match first_success connect_ex 0 (Z.to_nat max_attempts) with
       | Some i => fst r = Ret true /\ probes_made cs = S i /\ waits cs = repeat delay i
       | None =>
           fst r = Ret false
           /\ probes_made cs = Z.to_nat max_attempts
           /\ waits cs = repeat delay (Z.to_nat max_attempts)
       end.
Proof.
  intros Hdelay. cbv zeta.
  set (s1 := {| probes := 0;
                steps := [Print ("Waiting for WiFi Connect on port " +:+
                                 pretty CaptivePortalProxy.WIFI_CONNECT_PORT +:+ "...")] |}).
  assert (Hrun : wait_for_wifi_connect connect_ex max_attempts delay
                   {| probes := 0; steps := [] |} =
                 attempts connect_ex (Z.to_nat max_attempts) 0 max_attempts delay s1)
    by reflexivity.
  rewrite Hrun.
  destruct (attempts_run connect_ex (Z.to_nat max_attempts) 0 max_attempts delay s1 Hdelay)
    as (cs & Hsteps & Hres).
  change (probes s1) with 0%nat in Hres.
  exists cs. rewrite Hsteps.
  change (steps s1) with [Print ("Waiting for WiFi Connect on port " +:+
                                 pretty CaptivePortalProxy.WIFI_CONNECT_PORT +:+ "...")].
  rewrite probes_made_app, waits_app. done.
Qed.

(** X14. [wait_for_wifi_connect] returns True as soon as one probe of the
    backend port succeeds, and False after [max_attempts] failed probes
    (at once when [max_attempts] is not positive).  It probes once per
    round, never again after a success, and sleeps [delay] seconds after
    each failed probe and only then. *)
Theorem wait_for_wifi_connect_stops_at_first_success connect_ex max_attempts delay :
  0 <= delay ->
  let r := wait_for_wifi_connect connect_ex max_attempts delay {| probes := 0; steps := [] |} in
  match first_success connect_ex 0 (Z.to_nat max_attempts) with
  | Some i =>
      fst r = Ret true
      /\ probes_made (steps (snd r)) = S i
      /\ waits (steps (snd r)) = repeat delay i
  | None =>
      fst r = Ret false
      /\ probes_made (steps (snd r)) = Z.to_nat max_attempts
      /\ waits (steps (snd r)) = repeat delay (Z.to_nat max_attempts)
  end.
Proof.
  intros Hdelay. cbv zeta.
  destruct (wait_for_wifi_connect_run connect_ex max_attempts delay Hdelay)
    as (cs & -> & -> & Hres).
  destruct (first_success connect_ex 0 (Z.to_nat max_attempts)) as [i|];
    destruct Hres as (Hfst & Hprobes & Hwaits); by rewrite Hfst, Hprobes, Hwaits.
Qed.

(** The theorem where the third probe is the first to succeed. *)
Lemma wait_for_wifi_connect_stops_at_first_success_witness :
  let answers (n : nat) : Z := if (n <? 2)%nat then 111 else 0 in
  let r := wait_for_wifi_connect answers 15 2 {| probes := 0; steps := [] |} in
  fst r = Ret true /\ probes_made (steps (snd r)) = 3%nat /\ waits (steps (snd r)) = [2; 2].
Proof.
  cbv zeta.
  refine (wait_for_wifi_connect_stops_at_first_success
            (fun n => if (n <? 2)%nat then 111 else 0) 15 2 _).
  lia.
Defined.

Lemma sum_repeat (d : Z) n : foldr Z.add 0 (repeat d n) = d * Z.of_nat n.
Proof. induction n as [|n IH]; cbn [repeat foldr]; lia. Qed.

Lemma first_success_bound connect_ex from n i :
  first_success connect_ex from n = Some i -> (i < n)%nat.
Proof.
  revert from i. induction n as [|n IH]; intros from i; cbn; [done|].
  destruct (connect_ex from =? 0); [intros [= <-]; lia|].
  destruct (first_success connect_ex (S from) n) as [j|] eqn:E; cbn; [|done].
  intros [= <-]. apply IH in E. lia.
Qed.

(** X15. The wait at startup is bounded: whatever the network answers,
    [wait_for_wifi_connect] makes at most [max_attempts] probes and sleeps
    at most [max_attempts * delay] seconds in all, so the 15 attempts of 2
    seconds that [main] asks for hold the proxy back by at most 30 seconds
    of sleep. *)
Theorem wait_for_wifi_connect_is_bounded connect_ex max_attempts delay :
  0 <= delay -> 0 <= max_attempts ->
  let r := wait_for_wifi_connect connect_ex max_attempts delay {| probes := 0; steps := [] |} in
  (exists b, fst r = Ret b)
  /\ Z.of_nat (probes_made (steps (snd r))) <= max_attempts
  /\ foldr Z.add 0 (waits (steps (snd r))) <= max_attempts * delay.
Proof.
  intros Hdelay Hmax. cbv zeta.
  destruct (wait_for_wifi_connect_run connect_ex max_attempts delay Hdelay)
    as (cs & -> & -> & Hres).
  destruct (first_success connect_ex 0 (Z.to_nat max_attempts)) as [i|] eqn:E;
    destruct Hres as (Hfst & Hprobes & Hwaits);
    rewrite Hfst, Hprobes, Hwaits, sum_repeat.
  - apply first_success_bound in E. split; [eauto|]. nia.
  - split; [eauto|]. nia.
Qed.

Lemma wait_for_wifi_connect_is_bounded_witness :
  let r := wait_for_wifi_connect (fun _ => 111) 15 2 {| probes := 0; steps := [] |} in
  foldr Z.add 0 (waits (steps (snd r))) <= 15 * 2.
Proof.
  cbv zeta.
  refine (proj2 (proj2 (wait_for_wifi_connect_is_bounded (fun _ => 111) 15 2 _ _))); lia.
Defined.

End ProxyStartupFacts.

(** ** Releasing the test processes at exit *)

Module ConfigServerShutdownFacts.
Import Py ConfigServer ConfigServerShutdown.

Lemma unlink_removes name (w : world) :
  files w ∖ {[name]} = (if bool_decide (name ∈ files w) then files w ∖ {[name]} else files w).
Proof.
  destruct (bool_decide (name ∈ files w)) eqn:E; [done|].
  apply bool_decide_eq_false in E.
  apply difference_disjoint_L. by apply disjoint_singleton_r.
Qed.

(** One entry: the calls of [entry_calls], the sink released, no exception. *)
Lemma cleanup_entry_run env item w :
  cleanup_entry env item w =
  (Ret tt,
   {| TEST_PROCESSES := TEST_PROCESSES w;
      files := files w ∖ {[output_file (snd item)]};
      open_handles := open_handles w ∖ {[output_handle (snd item)]};
      trace := trace w ++ entry_calls env item;
      sent := sent w |}).
Proof.
  destruct item as [id info]. unfold cleanup_entry, entry_calls. cbn [fst snd].
  rewrite (unlink_removes (output_file info) w).
  unfold bind, try_pass, try_except, os_ask, close, unlink, modify, ret,
    set_handles, set_files, log_call.
  cbn [fst snd TEST_PROCESSES files open_handles trace sent].
  destruct (poll_at_exit (env id)) as [rc|];
    [|destruct (getpgid_at_exit (env id)) as [pgid|e];
      [destruct (killpg_at_exit (env id)) as [[]|e]|]];
    cbn [fst snd TEST_PROCESSES files open_handles trace sent];
    destruct (bool_decide (output_file info ∈ files w));
    cbn [fst snd TEST_PROCESSES files open_handles trace sent];
    f_equal; f_equal; rewrite <- ?app_assoc; reflexivity.
Qed.

Lemma cleanup_entries_run env items : forall w,
  for_each items (cleanup_entry env) w =
  (Ret tt,
   {| TEST_PROCESSES := TEST_PROCESSES w;
      files := files w ∖ list_to_set ((fun item => output_file (snd item)) <$> items);
      open_handles :=
        open_handles w ∖ list_to_set ((fun item => output_handle (snd item)) <$> items);
      trace := trace w ++ concat (map (entry_calls env) items);
      sent := sent w |}).
Proof.
  induction items as [|item items IH]; intros w.
  - cbn [for_each map concat list_to_set fmap list_fmap foldr]. unfold ret. destruct w as [reg fs hs tr se].
    cbn [TEST_PROCESSES files open_handles trace sent].
    by rewrite !difference_empty_L, app_nil_r.
  - cbn [for_each map concat list_to_set fmap list_fmap foldr]. unfold bind.
    rewrite cleanup_entry_run, IH.
    cbn [TEST_PROCESSES files open_handles trace sent].
    f_equal. f_equal.
    + apply set_eq. intros x.
      rewrite !elem_of_difference, elem_of_union, elem_of_singleton. tauto.
    + apply set_eq. intros x.
      rewrite !elem_of_difference, elem_of_union, elem_of_singleton. tauto.
    + by rewrite <- app_assoc.
Qed.

Lemma cleanup_test_processes_run env items w :
  cleanup_test_processes env items w =
  (Ret tt,
   {| TEST_PROCESSES := ∅;
      files := files w ∖ list_to_set ((fun item => output_file (snd item)) <$> items);
      open_handles :=
        open_handles w ∖ list_to_set ((fun item => output_handle (snd item)) <$> items);
      trace := trace w ++ concat (map (entry_calls env) items);
      sent := sent w |}).
Proof.
  unfold cleanup_test_processes, bind. rewrite cleanup_entries_run. reflexivity.
Qed.

(** X16. [cleanup_test_processes] never raises and leaves nothing of the
    registry behind: the registry is empty, every output file of an entry
    is gone, every handle of an entry is closed, other files and handles
    are untouched and no answer is sent, whatever [poll], [getpgid] and
    [killpg] do and in whatever order the entries are visited. *)
Theorem cleanup_releases_every_entry env items w :
  items ≡ₚ map_to_list (TEST_PROCESSES w) ->
  let r := cleanup_test_processes env items w in
  fst r = Ret tt
  /\ TEST_PROCESSES (snd r) = ∅
  /\ (forall name, name ∈ files (snd r) <->
        name ∈ files w /\
        forall id info, TEST_PROCESSES w !! id = Some info -> output_file info <> name)
  /\ (forall h, h ∈ open_handles (snd r) <->
        h ∈ open_handles w /\
        forall id info, TEST_PROCESSES w !! id = Some info -> output_handle info <> h)
  /\ sent (snd r) = sent w.
Proof.
  intros Hitems. cbv zeta. rewrite cleanup_test_processes_run.
  cbn [fst snd TEST_PROCESSES files open_handles sent].
  assert (Hin : forall id info, TEST_PROCESSES w !! id = Some info <-> (id, info) ∈ items).
  { intros id info. rewrite Hitems. by rewrite elem_of_map_to_list. }
  split; [done|]. split; [done|]. split; [|split; [|done]].
  - intros name. rewrite elem_of_difference, elem_of_list_to_set, list_elem_of_fmap.
    split.
    + intros [Hf Hno]. split; [done|]. intros id info Hreg <-. apply Hno.
      exists (id, info). split; [done|]. by apply Hin.
    + intros [Hf Hno]. split; [done|]. intros ([id info] & -> & Hitem).
      apply Hin in Hitem. by apply (Hno id info).
  - intros h. rewrite elem_of_difference, elem_of_list_to_set, list_elem_of_fmap.
    split.
    + intros [Hf Hno]. split; [done|]. intros id info Hreg <-. apply Hno.
      exists (id, info). split; [done|]. by apply Hin.
    + intros [Hf Hno]. split; [done|]. intros ([id info] & -> & Hitem).
      apply Hin in Hitem. by apply (Hno id info).
Qed.

Lemma cleanup_releases_every_entry_witness :
  let info := {| process := {| pid := 4242 |}; output_file := "/tmp/tmpk3.log";
                 output_handle := 7%nat; start_time := 1700000000; command := "sleep 60" |} in
  let w := {| TEST_PROCESSES := {["4242" := info]};
              files := {["/tmp/tmpk3.log"; "/etc/ossuary/config.json"]};
              open_handles := {[7%nat]}; trace := []; sent := [] |} in
  let env := fun _ : string =>
    {| poll_at_exit := None; getpgid_at_exit := Raise (ProcessLookupError "No such process");
       killpg_at_exit := Ret tt |} in
  TEST_PROCESSES (snd (cleanup_test_processes env [("4242", info)] w)) = ∅.
Proof.
  cbv zeta.
  refine (proj1 (proj2 (cleanup_releases_every_entry _ _ _ _))).
  vm_compute. reflexivity.
Defined.

Lemma calls_between_app w w' cs : trace w' = trace w ++ cs -> calls_between w w' = cs.
Proof. intros H. unfold calls_between. rewrite H. apply drop_app_length. Qed.

Lemma cleanup_test_processes_calls env items w :
  calls_between w (snd (cleanup_test_processes env items w)) =
  concat (map (entry_calls env) items).
Proof. apply calls_between_app. by rewrite cleanup_test_processes_run. Qed.

(** X17. At exit a process group is sent SIGTERM exactly when its entry
    was polled as still running and its group was found; nothing is sent
    for a command that has exited.  [cleanup_test_processes] never sends
    SIGKILL, never waits and never calls [terminate] or [kill]: it does not
    learn whether a command has stopped. *)
Theorem cleanup_signals_only_the_running env items w :
  let cs := calls_between w (snd (cleanup_test_processes env items w)) in
  (forall (pgid : Z) (how : signal),
      Killpg pgid how ∈ cs <->
      how = SIGTERM /\
      exists item, item ∈ items /\ poll_at_exit (env (fst item)) = None
                   /\ getpgid_at_exit (env (fst item)) = Ret pgid)
  /\ (forall seconds, Sleep seconds ∉ cs)
  /\ (forall p, Terminate p ∉ cs)
  /\ (forall p, Kill p ∉ cs).
Proof.
  cbv zeta. rewrite cleanup_test_processes_calls.
  assert (Hcs : forall c, c ∈ concat (map (entry_calls env) items) <->
                  exists item, item ∈ items /\ c ∈ entry_calls env item).
  { intros c. rewrite list_elem_of_In, in_concat. split.
    - intros (l & Hl & Hc). apply in_map_iff in Hl as (item & <- & Hitem).
      exists item. by rewrite !list_elem_of_In.
    - intros (item & Hitem & Hc). exists (entry_calls env item).
      rewrite <- !list_elem_of_In. split; [|done].
      apply list_elem_of_In, in_map, list_elem_of_In, Hitem. }
  assert (Hentry : forall item c, c ∈ entry_calls env item ->
            match c with
            | Killpg pgid how =>
                how = SIGTERM /\ poll_at_exit (env (fst item)) = None
                /\ getpgid_at_exit (env (fst item)) = Ret pgid
            | Sleep _ | Terminate _ | Kill _ => False
            | _ => True
            end).
  { intros item c. unfold entry_calls.
    destruct (poll_at_exit (env (fst item))) as [rc|];
      [|destruct (getpgid_at_exit (env (fst item))) as [pgid|e]];
      cbn [app]; rewrite ?elem_of_cons, elem_of_nil;
      intros H; repeat (destruct H as [->|H]; [done|]); done. }
  split; [|split; [|split]].
  - intros pgid how. rewrite Hcs. split.
    + intros (item & Hitem & Hc). apply Hentry in Hc as (-> & Hpoll & Hpg).
      split; [done|]. by exists item.
    + intros (-> & item & Hitem & Hpoll & Hpg). exists item. split; [done|].
      unfold entry_calls. rewrite Hpoll, Hpg. cbn [app].
      rewrite !elem_of_cons. tauto.
  - intros seconds H. apply Hcs in H as (item & _ & H). by apply Hentry in H.
  - intros p H. apply Hcs in H as (item & _ & H). by apply Hentry in H.
  - intros p H. apply Hcs in H as (item & _ & H). by apply Hentry in H.
Qed.

(** X18. Clearing the registry a second time does nothing: when a signal
    makes [run_server] clear it in the handler and again in its [finally]
    clause, the second pass makes no call and changes nothing. *)
Theorem cleanup_twice_is_cleanup_once env env' items items' w :
  items' ≡ₚ map_to_list (TEST_PROCESSES (snd (cleanup_test_processes env items w))) ->
  cleanup_test_processes env' items' (snd (cleanup_test_processes env items w)) =
  (Ret tt, snd (cleanup_test_processes env items w)).
Proof.
  rewrite (cleanup_test_processes_run env items w). cbn [snd TEST_PROCESSES].
  rewrite map_to_list_empty. intros ->%Permutation_nil_r.
  rewrite cleanup_test_processes_run.
  cbn [fmap list_fmap map concat list_to_set foldr TEST_PROCESSES files open_handles trace sent].
  by rewrite !difference_empty_L, app_nil_r.
Qed.

Lemma cleanup_twice_is_cleanup_once_witness :
  let info := {| process := {| pid := 4242 |}; output_file := "/tmp/tmpk3.log";
                 output_handle := 7%nat; start_time := 1700000000; command := "sleep 60" |} in
  let w := {| TEST_PROCESSES := {["4242" := info]}; files := {["/tmp/tmpk3.log"]};
              open_handles := {[7%nat]}; trace := []; sent := [] |} in
  let env := fun _ : string =>
    {| poll_at_exit := None; getpgid_at_exit := Ret 4242; killpg_at_exit := Ret tt |} in
  let w1 := snd (cleanup_test_processes env [("4242", info)] w) in
  cleanup_test_processes env [] w1 = (Ret tt, w1).
Proof.
  cbv zeta.
  refine (cleanup_twice_is_cleanup_once _ _ _ [] _ _).
  vm_compute. reflexivity.
Defined.

End ConfigServerShutdownFacts.

(** ** Service control and display power *)

Module ConfigServerCommandsFacts.
Import Py ConfigServer ConfigServerCommands.

Ltac host_run :=
  cbv [bind try_except ret raise modify ConfigServerCommands.send_json_response
       subprocess_run json_loads ConfigServerCommands.data_get power_lower];
  cbn [ran replied fst snd].

Lemma ran_between_app h h' l : ran h' = ran h ++ l -> ran_between h h' = l.
Proof. intros H. unfold ran_between. rewrite H. apply drop_app_length. Qed.

Lemma ran_between_same h h' : ran h' = ran h -> ran_between h h' = [].
Proof. intros H. unfold ran_between. rewrite H. apply drop_all. Qed.

Lemma replied_between_app h h' l : replied h' = replied h ++ l -> replied_between h h' = l.
Proof. intros H. unfold replied_between. rewrite H. apply drop_app_length. Qed.

Lemma in_strings_true value l :
  in_strings value l = true -> exists s, value = JStr s /\ s ∈ l.
Proof.
  destruct value; cbn; try discriminate.
  intros H. apply bool_decide_eq_true in H. eauto.
Qed.

(** The state after [handle_service_control], case by case. *)
Lemma handle_service_control_run post_data env h :
  let r := handle_service_control post_data env h in
  fst r = Ret tt
  /\ (exists answer, replied (snd r) = replied h ++ [answer])
  /\ (ran (snd r) = ran h
      \/ exists a s,
           a ∈ ACTIONS /\ s ∈ SERVICES
           /\ (ran (snd r) = ran h ++ [(["systemctl"; a; s], 10)]
               \/ ran (snd r) = ran h ++ [(["systemctl"; a; s], 10);
                                          (["systemctl"; "is-active"; s], 2)])).
Proof.
  cbv zeta. unfold handle_service_control.
  destruct post_data as [data|]; [|host_run; eauto].
  destruct data as [| | | | | |members]; try (host_run; eauto).
  host_run.
  destruct (in_strings (default JNull (members_get "service" members)) SERVICES) eqn:Hs;
    [|cbn [negb ran replied fst snd]; eauto].
  destruct (in_strings (default JNull (members_get "action" members)) ACTIONS) eqn:Ha;
    [|cbn [negb ran replied fst snd]; eauto].
  apply in_strings_true in Hs as (s & -> & Hs).
  apply in_strings_true in Ha as (a & -> & Ha).
  cbn [negb text_of].
  destruct (run_action env) as [result|e]; cbn [ran replied fst snd].
  - destruct (run_is_active env) as [status_result|e]; cbn [ran replied fst snd];
      (split; [done|]); (split; [eauto|]); right; exists a, s;
      (split; [done|]); (split; [done|]); right; by rewrite <- app_assoc.
  - split; [done|]. split; [eauto|]. right. exists a, s. eauto.
Qed.

(** X19. Whatever is posted and whatever [systemctl] does,
    [handle_service_control] runs nothing but [systemctl <action> <service>]
    with the action among start, stop and restart and the service among the
    four listed units, followed at most by [systemctl is-active] for the
    same unit; it answers exactly once and never raises. *)
Theorem service_control_runs_only_listed_units post_data env h :
  let r := handle_service_control post_data env h in
  fst r = Ret tt
  /\ length (replied_between h (snd r)) = 1%nat
  /\ (ran_between h (snd r) = []
      \/ exists a s,
           a ∈ ["start"; "stop"; "restart"]
           /\ s ∈ ["wifi-connect"; "wifi-connect-manager"; "ossuary-startup"; "ossuary-web"]
           /\ (ran_between h (snd r) = [(["systemctl"; a; s], 10)]
               \/ ran_between h (snd r) = [(["systemctl"; a; s], 10);
                                           (["systemctl"; "is-active"; s], 2)])).
Proof.
  cbv zeta.
  destruct (handle_service_control_run post_data env h) as (Hret & [answer Hans] & Hran).
  split; [done|]. split; [by rewrite (replied_between_app _ _ _ Hans)|].
  destruct Hran as [Hran|(a & s & Ha & Hs & [Hran|Hran])].
  - left. by apply ran_between_same.
  - right. exists a, s. split; [done|]. split; [done|]. left. by apply ran_between_app.
  - right. exists a, s. split; [done|]. split; [done|]. right. by apply ran_between_app.
Qed.

(** X20. A request whose service or action is not a listed string is
    answered 400 and runs nothing; the service is checked first. *)
Theorem service_control_refuses_unlisted members env h :
  in_strings (default JNull (members_get "service" members)) SERVICES = false
  \/ in_strings (default JNull (members_get "action" members)) ACTIONS = false ->
  let r := handle_service_control (Some (JObj members)) env h in
  ran (snd r) = ran h
  /\ replied (snd r) =
     replied h ++
     [(400, JObj [("error",
                   JStr (if in_strings (default JNull (members_get "service" members)) SERVICES
                         then "Invalid action" else "Invalid service"))])].
Proof.
  intros H. cbv zeta. unfold handle_service_control. host_run.
  destruct (in_strings (default JNull (members_get "service" members)) SERVICES) eqn:Hs;
    cbn [negb ran replied fst snd]; [|done].
  destruct H as [H|H]; [discriminate H|]. rewrite H. cbn [negb ran replied fst snd]. done.
Qed.

Lemma service_control_refuses_unlisted_witness :
  let members := [("service", JStr "ssh"); ("action", JStr "stop")] in
  let env := {| run_action := Ret {| returncode := 0; stdout := ""; stderr := "" |};
                run_is_active := Ret {| returncode := 0; stdout := "active"; stderr := "" |} |} in
  let h := {| ran := []; replied := [] |} in
  ran (snd (handle_service_control (Some (JObj members)) env h)) = [].
Proof.
  cbv zeta.
  refine (proj1 (service_control_refuses_unlisted _ _ _ _)).
  left. vm_compute. reflexivity.
Defined.

(** X21. An accepted request runs [systemctl <action> <service>] with a
    timeout of 10 seconds and then [systemctl is-active <service>]; the
    answer reports success exactly when the first run returned 0, with the
    trimmed output of the second as the new status. *)
Theorem service_control_reports_return_code members s a env h result status_result :
  default JNull (members_get "service" members) = JStr s -> s ∈ SERVICES ->
  default JNull (members_get "action" members) = JStr a -> a ∈ ACTIONS ->
  run_action env = Ret result ->
  run_is_active env = Ret status_result ->
  handle_service_control (Some (JObj members)) env h =
  (Ret tt,
   {| ran := ran h ++ [(["systemctl"; a; s], 10); (["systemctl"; "is-active"; s], 2)];
      replied := replied h ++
        [(200, JObj [("success", JBool (returncode result =? 0));
                     ("service", JStr s); ("action", JStr a);
                     ("new_status", JStr (strip (stdout status_result)));
                     ("output", JStr (stdout result +:+ stderr result))])] |}).
Proof.
  intros Hs Hsin Ha Hain Hrun Hact. unfold handle_service_control. host_run.
  rewrite Hs, Ha. unfold in_strings.
  rewrite (bool_decide_eq_true_2 _ Hsin), (bool_decide_eq_true_2 _ Hain).
  cbn [negb text_of]. rewrite Hrun. cbn [ran replied fst snd]. rewrite Hact.
  cbn [ran replied fst snd]. by rewrite <- app_assoc.
Qed.

Lemma service_control_reports_return_code_witness :
  let members := [("service", JStr "ossuary-web"); ("action", JStr "restart")] in
  let failed := {| returncode := 1; stdout := ""; stderr := "Job failed" |} in
  let active := {| returncode := 0; stdout := "active
"; stderr := "" |} in
  snd (handle_service_control (Some (JObj members))
         {| run_action := Ret failed; run_is_active := Ret active |}
         {| ran := []; replied := [] |}) =
  {| ran := [(["systemctl"; "restart"; "ossuary-web"], 10);
             (["systemctl"; "is-active"; "ossuary-web"], 2)];
     replied := [(200, JObj [("success", JBool false);
                             ("service", JStr "ossuary-web"); ("action", JStr "restart");
                             ("new_status", JStr "active");
                             ("output", JStr "Job failed")])] |}.
Proof.
  cbv zeta.
  etransitivity;
    [refine (f_equal snd
       (service_control_reports_return_code _ "ossuary-web" "restart" _ _ _ _ _ _ _ _ _ _));
     try reflexivity; apply (bool_decide_unpack _); vm_compute; exact I
    |vm_compute; reflexivity].
Defined.

(** The state after [handle_set_display_power], case by case. *)
Lemma handle_set_display_power_run post_data run_vcgencmd h :
  let r := handle_set_display_power post_data run_vcgencmd h in
  fst r = Ret tt
  /\ (exists answer, replied (snd r) = replied h ++ [answer])
  /\ (ran (snd r) = ran h
      \/ exists v, v ∈ ["1"; "0"]
                   /\ ran (snd r) = ran h ++ [(["vcgencmd"; "display_power"; v], 5)]).
Proof.
  cbv zeta. unfold handle_set_display_power.
  destruct post_data as [data|]; [|host_run; eauto].
  destruct data as [| | | | | |members]; try (host_run; eauto).
  host_run.
  destruct (default (JStr "") (members_get "power" members)) as [| | | |s| |];
    try (cbn [ran replied fst snd]; eauto).
  cbn [ran replied fst snd].
  destruct (bool_decide (lower s ∈ ["on"; "off"; "1"; "0"])); cbn [negb ran replied fst snd];
    [|eauto].
  assert (Hv : (if bool_decide (lower s ∈ ["on"; "1"]) then "1" else "0") ∈ ["1"; "0"]).
  { destruct (bool_decide (lower s ∈ ["on"; "1"])); rewrite !elem_of_cons; tauto. }
  destruct run_vcgencmd as [result|e]; cbn [ran replied fst snd];
    [destruct (returncode result =? 0)|destruct e]; cbn [ran replied fst snd];
    (split; [done|]); (split; [eauto|]); right; eauto.
Qed.

(** X22. Whatever is posted, [handle_set_display_power] runs at most one
    command, [vcgencmd display_power 1] or [vcgencmd display_power 0] with a
    timeout of 5 seconds, answers exactly once and never raises:
    nothing of the posted text reaches the command line. *)
Theorem set_display_power_runs_fixed_commands post_data run_vcgencmd h :
  let r := handle_set_display_power post_data run_vcgencmd h in
  fst r = Ret tt
  /\ length (replied_between h (snd r)) = 1%nat
  /\ (ran_between h (snd r) = []
      \/ ran_between h (snd r) = [(["vcgencmd"; "display_power"; "1"], 5)]
      \/ ran_between h (snd r) = [(["vcgencmd"; "display_power"; "0"], 5)]).
Proof.
  cbv zeta.
  destruct (handle_set_display_power_run post_data run_vcgencmd h)
    as (Hret & [answer Hans] & Hran).
  split; [done|]. split; [by rewrite (replied_between_app _ _ _ Hans)|].
  destruct Hran as [Hran|(v & Hv & Hran)].
  - left. by apply ran_between_same.
  - right. rewrite (ran_between_app _ _ _ Hran).
    rewrite !elem_of_cons, elem_of_nil in Hv. destruct Hv as [->|[->|[]]]; tauto.
Qed.

(** X23. The power state is read without regard to letter case: a posted
    text that is on, off, 1 or 0 after [lower()] is accepted, on and 1 set
    the display on, off and 0 set it off, and when [vcgencmd] returns 0 the
    answer names the state that was set. *)
Theorem set_display_power_ignores_case members s result h :
  default (JStr "") (members_get "power" members) = JStr s ->
  lower s ∈ ["on"; "off"; "1"; "0"] ->
  returncode result = 0 ->
  let on := bool_decide (lower s ∈ ["on"; "1"]) in
  handle_set_display_power (Some (JObj members)) (Ret result) h =
  (Ret tt,
   {| ran := ran h ++ [(["vcgencmd"; "display_power"; if on then "1" else "0"], 5)];
      replied := replied h ++
        [(200, JObj [("success", JBool true);
                     ("power", JStr (if on then "on" else "off"))])] |}).
Proof.
  intros Hs Hin Hrc. cbv zeta. unfold handle_set_display_power. host_run.
  rewrite Hs. cbn [ran replied fst snd].
  rewrite (bool_decide_eq_true_2 _ Hin). cbn [negb ran replied fst snd].
  rewrite Hrc. cbn [Z.eqb ran replied fst snd].
  by destruct (bool_decide (lower s ∈ ["on"; "1"])).
Qed.

Lemma set_display_power_ignores_case_witness :
  snd (handle_set_display_power (Some (JObj [("power", JStr "Off")]))
         (Ret {| returncode := 0; stdout := ""; stderr := "" |})
         {| ran := []; replied := [] |}) =
  {| ran := [(["vcgencmd"; "display_power"; "0"], 5)];
     replied := [(200, JObj [("success", JBool true); ("power", JStr "off")])] |}.
Proof.
  etransitivity;
    [refine (f_equal snd
       (set_display_power_ignores_case [("power", JStr "Off")] "Off"
          {| returncode := 0; stdout := ""; stderr := "" |} _ _ _ _));
     [reflexivity | apply (bool_decide_unpack _); vm_compute; exact I | reflexivity]
    |vm_compute; reflexivity].
Defined.

(** X24. [handle_get_display_power] runs exactly [vcgencmd display_power],
    answers exactly once and never raises; it reports a state only when the
    command returned 0, and then on exactly when the trimmed output
    contains the text =1. *)
Theorem get_display_power_reads_vcgencmd run_vcgencmd h :
  let r := handle_get_display_power run_vcgencmd h in
  fst r = Ret tt
  /\ ran_between h (snd r) = [(["vcgencmd"; "display_power"], 5)]
  /\ exists status data,
       replied_between h (snd r) = [(status, data)]
       /\ (status = 200 <-> exists result, run_vcgencmd = Ret result /\ returncode result = 0)
       /\ forall result, run_vcgencmd = Ret result -> returncode result = 0 ->
            data = JObj [("power", JStr (if contains "=1" (strip (stdout result))
                                         then "on" else "off"));
                         ("raw", JStr (strip (stdout result)))].
Proof.
  cbv zeta. unfold handle_get_display_power. host_run.
  destruct run_vcgencmd as [result|e]; cbn [ran replied fst snd].
  - destruct (returncode result =? 0) eqn:Hrc; cbn [ran replied fst snd];
      (split; [done|]); (split; [by apply ran_between_app|]);
      eexists; eexists; (split; [by apply replied_between_app|]).
    + apply Z.eqb_eq in Hrc. split.
      * split; [eauto|done].
      * by intros ? [= <-] _.
    + apply Z.eqb_neq in Hrc. split.
      * split; [done|]. by intros (? & [= <-] & ?).
      * by intros ? [= <-] ?.
  - split; [done|]. split; [by apply ran_between_app|].
    eexists; eexists. split; [by apply replied_between_app|].
    split; [|done]. split; [done|]. by intros (? & ? & ?).
Qed.

End ConfigServerCommandsFacts.

(** ** Routing *)

Module ConfigServerRoutingFacts.
Import Py PyFacts ConfigServer ConfigServerRouting.

Lemma split_free c s : free_of c s = true -> split c s = [s].
Proof.
  induction s as [|a s IH]; cbn [free_of split]; [done|].
  intros [Ha Hs]%andb_prop. apply negb_true_iff in Ha. rewrite Ha, (IH Hs). done.
Qed.

Lemma split_singleton c s x : split c s = [x] -> x = s.
Proof.
  revert x. induction s as [|a s IH]; intros x; cbn [split]; [by intros [= <-]|].
  destruct (Ascii.eqb a c).
  - destruct (split_cons c s) as (piece & pieces & ->). discriminate.
  - destruct (split_cons c s) as (piece & pieces & E). rewrite E in IH |- *.
    intros [= <- ->]. by rewrite (IH piece eq_refl).
Qed.

Lemma path_parts_api path : path_parts path = ["api"] <-> strip_char "/" path = "api".
Proof.
  unfold path_parts. split.
  - intros H. symmetry. by apply (split_singleton "/").
  - by intros ->.
Qed.

(** What [api_route] does, by the number of parts. *)
Lemma api_route_parts path name :
  api_route path name =
  match path_parts path with
  | [p0] => if String.eqb p0 "api" then Raise IndexError else Ret false
  | p0 :: p1 :: _ => Ret (String.eqb p0 "api" && String.eqb p1 name)
  | [] => Raise IndexError
  end.
Proof.
  unfold api_route, part. destruct (path_parts path) as [|p0 [|p1 rest]]; cbn; [done| |];
    by destruct (String.eqb p0 "api").
Qed.



Ltac by_path path :=
  repeat match goal with
         | |- context [String.eqb path ?l] => destruct (String.eqb_spec path l) as [->|]
         | |- context [String.prefix ?l path] => destruct (String.prefix l path) eqn:?
         end.




Lemma rstrip_char_free c s : free_of c s = true -> rstrip_char c s = s.
Proof.
  induction s as [|a s IH]; cbn [free_of rstrip_char]; [done|].
  intros [Ha Hs]%andb_prop. apply negb_true_iff in Ha. rewrite (IH Hs), Ha.
  by destruct s.
Qed.

Lemma rstrip_char_app c pre s :
  free_of c s = true -> s <> "" -> rstrip_char c (pre +:+ s) = pre +:+ s.
Proof.
  intros Hs Hne. induction pre as [|a pre IH]; [by apply rstrip_char_free|].
  change (String a pre +:+ s) with (String a (pre +:+ s)).
  cbn [rstrip_char]. rewrite IH.
  destruct (pre +:+ s) eqn:E; [|done].
  destruct pre; [|discriminate E]. by destruct Hne.
Qed.

(** The digits of a number contain no slash. *)
Lemma pretty_N_go_free x s :
  free_of "/" s = true -> free_of "/" (pretty_N_go x s) = true.
Proof.
  revert s. induction (N.lt_wf_0 x) as [x _ IH]; intros s Hs.
  assert (x = 0 \/ 0 < x)%N as [->|Hx] by lia; [by rewrite pretty_N_go_0|].
  rewrite pretty_N_go_step by done. apply IH; [by apply N.div_lt|].
  cbn [free_of]. rewrite Hs, andb_true_r.
  unfold pretty_N_char. by repeat case_match.
Qed.

Lemma pretty_N_go_nonempty x s : s <> "" -> pretty_N_go x s <> "".
Proof.
  revert s. induction (N.lt_wf_0 x) as [x _ IH]; intros s Hs.
  assert (x = 0 \/ 0 < x)%N as [->|Hx] by lia; [by rewrite pretty_N_go_0|].
  rewrite pretty_N_go_step by done. apply IH; [by apply N.div_lt|done].
Qed.

Lemma pretty_N_free (x : N) : free_of "/" (pretty x) = true /\ pretty x <> "".
Proof.
  unfold pretty, pretty_N. destruct (decide (x = 0%N)) as [->|Hx]; [done|].
  split; [by apply pretty_N_go_free|].
  rewrite pretty_N_go_step by lia. by apply pretty_N_go_nonempty.
Qed.

Lemma pretty_Z_free (p : Z) : free_of "/" (pretty p) = true /\ pretty p <> "".
Proof.
  unfold pretty, pretty_Z. destruct p as [|p|p]; [done| |].
  - apply (pretty_N_free (Npos p)).
  - destruct (pretty_N_free (Npos p)) as [Hfree Hne]. split; [|done].
    change (free_of "/" (pretty (Npos p)) = true). exact Hfree.
Qed.

Lemma split_piece c pre s :
  free_of c pre = true -> split c (pre +:+ String c s) = pre :: split c s.
Proof.
  induction pre as [|a pre IH]; cbn [free_of].
  - intros _. change ("" +:+ String c s) with (String c s). cbn [split].
    by rewrite Ascii.eqb_refl.
  - intros [Ha Hs]%andb_prop. apply negb_true_iff in Ha.
    change (String a pre +:+ String c s) with (String a (pre +:+ String c s)).
    cbn [split]. by rewrite Ha, (IH Hs).
Qed.

(** A path that ends in an id without slash keeps the id as its third part. *)
Lemma do_GET_test_output self_path id :
  free_of "/" id = true -> id <> "" ->
  do_GET self_path ("/api/test-output/" +:+ id) = Ret (Target.handle_test_output id).
Proof.
  intros Hfree Hne.
  assert (Hparts : path_parts ("/api/test-output/" +:+ id) = ["api"; "test-output"; id]).
  { unfold path_parts, strip_char.
    change (lstrip_char "/" ("/api/test-output/" +:+ id)) with ("api/test-output/" +:+ id).
    rewrite (rstrip_char_app "/" "api/test-output/" id Hfree Hne).
    change ("api/test-output/" +:+ id) with ("api" +:+ String "/" ("test-output" +:+ String "/" id)).
    rewrite !split_piece by reflexivity. by rewrite (split_free "/" id Hfree). }
  unfold do_GET. rewrite !api_route_parts, Hparts. reflexivity.
Qed.

Lemma do_POST_stop_test request_headers py_int rfile n id :
  content_length request_headers py_int = Ret n ->
  free_of "/" id = true -> id <> "" ->
  do_POST ("/api/stop-test/" +:+ id) request_headers py_int rfile =
  Ret (Target.handle_stop_test id).
Proof.
  intros Hn Hfree Hne.
  assert (Hparts : path_parts ("/api/stop-test/" +:+ id) = ["api"; "stop-test"; id]).
  { unfold path_parts, strip_char.
    change (lstrip_char "/" ("/api/stop-test/" +:+ id)) with ("api/stop-test/" +:+ id).
    rewrite (rstrip_char_app "/" "api/stop-test/" id Hfree Hne).
    change ("api/stop-test/" +:+ id) with ("api" +:+ String "/" ("stop-test" +:+ String "/" id)).
    rewrite !split_piece by reflexivity. by rewrite (split_free "/" id Hfree). }
  unfold do_POST. rewrite Hn, !api_route_parts, Hparts. reflexivity.
Qed.

(** X26. The process id that [handle_test_command] returns addresses the
    command: for every integer p, a GET of /api/test-output/<p> calls
    [handle_test_output] with the decimal text of p and a POST of
    /api/stop-test/<p> calls [handle_stop_test] with it, and that text is
    the key under which a started command is registered. *)
Theorem started_command_is_addressable
    members c env w name h (p : Z) self_path request_headers py_int rfile n :
  default (JStr "") (members_get "command" members) = JStr c ->
  c <> "" ->
  len (strip c) <= 4096 ->
  (size (TEST_PROCESSES w) < 5)%nat ->
  tmp_name env = Ret name -> opened env = Ret h -> started env = Ret p ->
  content_length request_headers py_int = Ret n ->
  let w' := snd (handle_test_command (Some (JObj members)) env w) in
  exists info,
    TEST_PROCESSES w' !! pretty p = Some info
    /\ pid (process info) = p
    /\ do_GET self_path ("/api/test-output/" +:+ pretty p) =
       Ret (Target.handle_test_output (pretty p))
    /\ do_POST ("/api/stop-test/" +:+ pretty p) request_headers py_int rfile =
       Ret (Target.handle_stop_test (pretty p)).
Proof.
  intros Hc Hne Hlen Hsize Htmp Hopen Hstart Hn. cbv zeta.
  rewrite (ConfigServerFacts.handle_test_command_starts
             members c env w name h p Hc Hne Hlen Hsize Htmp Hopen Hstart).
  destruct (pretty_Z_free p) as [Hfree Hnonempty].
  eexists. split; [|split; [|split]].
  - cbn [snd spawned TEST_PROCESSES]. apply lookup_insert_eq.
  - reflexivity.
  - by apply do_GET_test_output.
  - by apply (do_POST_stop_test _ _ _ n).
Qed.

Lemma started_command_is_addressable_witness :
  do_GET "/api/test-output/4242?t=1" ("/api/test-output/" +:+ pretty 4242) =
  Ret (Target.handle_test_output "4242").
Proof.
  pose proof (started_command_is_addressable
    [("command", JStr "sleep 60")] "sleep 60"
    {| tmp_name := Ret "/tmp/tmpk3.log"; opened := Ret 7%nat; started := Ret 4242;
       now := 1700000000 |}
    {| TEST_PROCESSES := ∅; files := ∅; open_handles := ∅; trace := []; sent := [] |}
    "/tmp/tmpk3.log" 7%nat 4242 "/api/test-output/4242?t=1" [] (fun _ => None) "" 0)
    as H.
  cbv zeta in H.
  destruct H as (info & _ & _ & Hget & _);
    [reflexivity | discriminate | vm_compute; discriminate | vm_compute; lia
    | reflexivity | reflexivity | reflexivity | reflexivity | exact Hget].
Defined.

(** X27. A GET never calls a handler of the POST routes, whatever the
    path: no GET starts or stops a command, controls a service, reboots or
    saves anything.  A POST never serves a file and never reads test
    output, and a GET below /api/ never serves a file. *)
Theorem get_and_post_reach_separate_handlers self_path path request_headers py_int rfile t :
  (do_GET self_path path = Ret t -> posted t = false)
  /\ (do_POST path request_headers py_int rfile = Ret t ->
      posted t = true \/ exists error status, t = Target.send_json_response error status)
  /\ (do_GET self_path path = Ret t -> String.prefix "/api/" path = true ->
      forall file, t <> Target.SimpleHTTPRequestHandler_do_GET file).
Proof.
  split; [|split].
  - unfold do_GET. by_path path; try (by intros [= <-]).
    destruct (api_route path "logs") as [[]|e1]; [| |discriminate].
    + destruct (path_parts path) as [|? [|? [|? ?]]]; by intros [= <-].
    + destruct (api_route path "test-output") as [[]|e2]; [| |discriminate].
      * destruct (path_parts path) as [|? [|? [|? ?]]]; by intros [= <-].
      * by_path path; by intros [= <-].
  - unfold do_POST. destruct (content_length request_headers py_int) as [n|e]; [|discriminate].
    cbv zeta. by_path path; try (intros [= <-]; by left).
    destruct (api_route path "stop-test") as [[]|e1]; [| |discriminate].
    + destruct (path_parts path) as [|? [|? [|? ?]]]; intros [= <-]; eauto.
    + by_path path; intros [= <-]; eauto.
  - intros Hget Hpre file ->. revert Hget. unfold do_GET. rewrite Hpre.
    by_path path; try discriminate.
    destruct (api_route path "logs") as [[]|e1]; [| |discriminate].
    + destruct (path_parts path) as [|? [|? [|? ?]]]; discriminate.
    + destruct (api_route path "test-output") as [[]|e2]; [| |discriminate].
      * destruct (path_parts path) as [|? [|? [|? ?]]]; discriminate.
      * by_path path; discriminate.
Qed.


End ConfigServerRoutingFacts.

(** ** Validation of a configuration *)

Module ConfigValidationFacts.
Import Py ConfigServer ConfigValidation.

Lemma isinstance_spec v ty :
  isinstance v ty = true <-> type_of v = ty \/ (ty = py_int /\ type_of v = py_bool).
Proof. unfold isinstance. destruct (type_of v), ty; cbn; intuition congruence. Qed.

Lemma concat_imap_nil {A B} (f : nat -> A -> list B) l :
  concat (imap f l) = [] <-> forall i x, l !! i = Some x -> f i x = [].
Proof.
  revert f. induction l as [|a l IH]; intros f; [done|].
  cbn [imap concat]. rewrite app_nil, IH. split.
  - intros [Ha Hl] [|i] x; cbn; [by intros [= <-]|]. apply Hl.
  - intros H. split; [by apply (H 0%nat)|]. intros i x Hi. by apply (H (S i)).
Qed.

Lemma flat_map_nil {A B} (f : A -> list B) l :
  flat_map f l = [] <-> forall x, x ∈ l -> f x = [].
Proof.
  induction l as [|a l IH]; cbn [flat_map]; [by split; [intros _ x Hx; inversion Hx|]|].
  rewrite app_nil, IH. split.
  - intros [Ha Hl] x [->|Hx]%elem_of_cons; auto.
  - intros H. split; [apply H; left|intros x Hx; apply H; by right].
Qed.

Lemma type_errors_nil config entry :
  type_errors config entry = [] <->
  forall v, members_get (fst entry) config = Some v ->
            type_of v = snd entry \/ (snd entry = py_int /\ type_of v = py_bool).
Proof.
  unfold type_errors. destruct (members_get (fst entry) config) as [v|]; [|done].
  destruct (isinstance v (snd entry)) eqn:E; cbn [negb].
  - apply isinstance_spec in E. split; [by intros _ ? [= <-]|done].
  - split; [done|]. intros H. specialize (H v eq_refl).
    apply isinstance_spec in H. congruence.
Qed.

Lemma network_errors_nil i network :
  network_errors i network = [] <->
  exists members ssid, network = JObj members /\ members_get "ssid" members = Some ssid.
Proof.
  unfold network_errors. destruct network as [| | | | | |members];
    try (split; [done|by intros (? & ? & ? & ?)]).
  destruct (members_get "ssid" members) as [ssid|] eqn:E.
  - split; [eauto|done].
  - split; [done|]. intros (? & ? & [= <-] & ?). congruence.
Qed.

Lemma and3_iff (A A' B B' C C' : Prop) :
  (A <-> A') -> (B <-> B') -> (C <-> C') -> ((A /\ B) /\ C <-> A' /\ B' /\ C').
Proof. tauto. Qed.

(** X29. [validate_config] reports a configuration as valid exactly when
    every present key of the schema has its type (an int may also be a
    bool, which Python counts as one), every element of a [saved_networks]
    list is a dict with an [ssid], and in a [schedule] dict [enabled] is a
    bool and [rules] a list where present.  Absent keys, keys outside the
    schema and the contents of everything else are not looked at. *)
Theorem validate_config_accepts_exactly_well_formed config :
  fst (validate_config config) = true <-> well_formed config.
Proof.
  unfold validate_config, well_formed. cbn [fst].
  rewrite Nat.eqb_eq, length_zero_iff_nil, !app_nil, flat_map_nil.
  apply and3_iff.
  - split.
    + intros H key ty v Hin Hget.
      apply (proj1 (type_errors_nil config (key, ty)) (H _ Hin) v Hget).
    + intros H [key ty] Hin. apply type_errors_nil. intros v Hget. by apply (H key ty v).
  - destruct (members_get "saved_networks" config) as [[| | | | |networks|]|];
      try (split; [by intros _ ? [=]|done]).
    rewrite concat_imap_nil. split.
    + intros H ? [= <-] network (i & Hi)%list_elem_of_lookup.
      by apply (network_errors_nil i), (H i).
    + intros H i network Hi. apply network_errors_nil, (H networks eq_refl).
      by apply list_elem_of_lookup_2 in Hi.
  - destruct (members_get "schedule" config) as [[| | | | | |schedule]|];
      try (split; [by intros _ ? [=]|done]).
    rewrite app_nil. split.
    + intros [He Hr] ? [= <-]. split.
      * intros v Hv. rewrite Hv in He.
        destruct v; cbn in He; try discriminate He. eauto.
      * intros v Hv. rewrite Hv in Hr.
        destruct v; cbn in Hr; try discriminate Hr. eauto.
    + intros H. destruct (H schedule eq_refl) as [He Hr]. split.
      * destruct (members_get "enabled" schedule) as [v|]; [|done].
        by destruct (He v eq_refl) as [b ->].
      * destruct (members_get "rules" schedule) as [v|]; [|done].
        by destruct (Hr v eq_refl) as [rules ->].
Qed.

Lemma members_get_app_other key k v config :
  k <> key -> members_get key (config ++ [(k, v)]) = members_get key config.
Proof.
  intros Hk. induction config as [|[k' v'] config IH]; cbn [app members_get].
  - by destruct (String.eqb_spec k key).
  - by rewrite IH.
Qed.

(** X30. A key that the schema does not list is never looked at: setting
    it to any value changes neither the verdict nor the errors. *)
Theorem validate_config_ignores_unlisted_keys config key v :
  key ∉ (fst <$> CONFIG_SCHEMA) ->
  validate_config (config ++ [(key, v)]) = validate_config config.
Proof.
  intros Hkey. cbn in Hkey.
  rewrite !not_elem_of_cons in Hkey.
  destruct Hkey as (H1 & H2 & H3 & H4 & H5 & H6 & H7 & _).
  unfold validate_config. cbn [flat_map CONFIG_SCHEMA]. unfold type_errors. cbn [fst snd].
  by rewrite !members_get_app_other by done.
Qed.

Lemma validate_config_ignores_unlisted_keys_witness :
  validate_config ([("version", JStr "2")] ++ [("wifi_networks", JInt 7)]) =
  validate_config [("version", JStr "2")].
Proof.
  refine (validate_config_ignores_unlisted_keys _ "wifi_networks" _ _).
  apply (bool_decide_unpack _). vm_compute. exact I.
Defined.

End ConfigValidationFacts.
